(** * qbyteapi: the random-event generator and its log analysis

    A shallow embedding of [qbyte_headless.py] (class [QByteHeadless]) and
    [qbyte_utils.py] (class [QbyteDataProcessor]), and the properties of
    the threshold statistics, the trial log format, the event detection and
    the analysis arithmetic.

    Numbers.  A Python [int] is a [Z].  A Python [float] that is written to
    or read from a log ([ColorZ], [RotZ]) is the rational it denotes, a [Q].
    The threshold computation is embedded twice.  Module [Binary64] has it
    as the interpreter evaluates it, on binary64 floats, with the rounding
    of every operation, the [OverflowError] and [ValueError] of
    [math.ceil] and of the conversion of an [int], and the [pow] of the C
    library as a parameter; the statements on [calculate_statistics] for
    arbitrary parameters are made there.  The two classes have it in [R],
    without rounding: this is what the run engine is stated on, and the
    two agree at the parameters the constructor sets (1.65, 1.85 and
    250).
    The text form of a float ([str] in an f-string, [float(...)]) belongs to
    the interpreter and is a parameter of the development.

    Effects.  The clock and the random source are inputs (one [draw] per
    trial); the file system is a partial map from paths to contents that is
    threaded through every function that opens a file; an exception is a
    [Raise] result.  Printing and sleeping are left out. *)

From Stdlib Require Import ZArith QArith Qreals Reals Lra Lia.
From Stdlib Require Import List String Ascii Bool.
From Stdlib Require Decimal DecimalString DecimalPos BinaryString Floats.
Import ListNotations.

Set Implicit Arguments.

(* ================================================================== *)
(** * Python built-ins used by the two classes *)
(* ================================================================== *)

Module Py.

Local Open Scope string_scope.
Local Open Scope Z_scope.

(** ** Exceptions *)

Inductive exn := ValueError | TypeError | FileNotFoundError | OverflowError.

Inductive result (A : Type) : Type :=
| Ok (a : A)
| Raise (e : exn).
Arguments Ok {A} a.
Arguments Raise {A} e.

Definition bind {A B} (c : result A) (k : A -> result B) : result B :=
  match c with
  | Ok a => k a
  | Raise e => Raise e
  end.

Definition is_ok {A} (c : result A) : bool :=
  match c with Ok _ => true | Raise _ => false end.

(** ** Sequences: [len], negative indices, slices *)

Definition len {A} (l : list A) : Z := Z.of_nat (List.length l).

(** [l[-1]] and [l[-2]], with a default for the lists too short to have
    them (every use in the source is on a list long enough). *)
Definition last1 {A} (l : list A) (d : A) : A := List.last l d.
Definition last2 {A} (l : list A) (d : A) : A :=
  List.last (List.removelast l) d.

(** A slice bound [i] of a sequence of length [n]: a negative bound counts
    from the end, and every bound is clamped to [0..n]. *)
Definition bound (n i : Z) : nat :=
  Z.to_nat (if i <? 0 then Z.max 0 (i + n) else Z.min i n).

(** [l[start:stop]] *)
Definition slice {A} (l : list A) (start stop : Z) : list A :=
  let a := bound (len l) start in
  let b := bound (len l) stop in
  firstn (b - a) (skipn a l).

(** [l[:stop]] *)
Definition slice_to {A} (l : list A) (stop : Z) : list A :=
  firstn (bound (len l) stop) l.

Fixpoint sum (l : list Z) : Z :=
  match l with
  | [] => 0
  | x :: r => x + sum r
  end.

(** ** Strings *)

Definition newline : ascii := ascii_of_nat 10.

(** [s.split(sep)] for a separator of one character. *)
Fixpoint split (sep : ascii) (s : string) : list string :=
  match s with
  | EmptyString => [EmptyString]
  | String c r =>
      if Ascii.eqb c sep then EmptyString :: split sep r
      else match split sep r with
           | h :: t => String c h :: t
           | [] => [String c EmptyString]
           end
  end.

(** [needle in hay] *)
Fixpoint contains (needle hay : string) : bool :=
  String.prefix needle hay
  || match hay with
     | EmptyString => false
     | String _ r => contains needle r
     end.

(** [sep.join(l)] *)
Definition join (sep : string) (l : list string) : string :=
  String.concat sep l.

(** [s[n:]] for [0 <= n] *)
Fixpoint drop (n : nat) (s : string) : string :=
  match n, s with
  | O, _ => s
  | S n', String _ r => drop n' r
  | S _, EmptyString => EmptyString
  end.

(** [str(n)] of an [int] *)
Definition str (n : Z) : string :=
  DecimalString.NilZero.string_of_int (Z.to_int n).

(** [str(b)] of a [bool] *)
Definition str_bool (b : bool) : string := if b then "True" else "False".

(** The value of a decimal digit: the characters of codes 48 to 57. *)
Definition digit (c : ascii) : option Z :=
  let code := Z.of_nat (nat_of_ascii c) in
  if (48 <=? code) && (code <=? 57) then Some (code - 48) else None.

Fixpoint all_digits (s : string) : bool :=
  match s with
  | EmptyString => true
  | String c r =>
      match digit c with Some _ => all_digits r | None => false end
  end.

(** [s.isdigit()] on an ASCII text: not empty, and the digits 0 to 9 only.
    (Beyond ASCII the interpreter also counts other digit characters, the
    superscript two among them, which [int] then refuses.) *)
Definition isdigit (s : string) : bool :=
  match s with
  | EmptyString => false
  | _ => all_digits s
  end.

Fixpoint int_acc (acc : Z) (s : string) : Z :=
  match s with
  | EmptyString => acc
  | String c r =>
      int_acc (10 * acc + match digit c with Some d => d | None => 0 end) r
  end.

(** [int(s)] where [s.isdigit()] holds (the only use in the source), for an
    ASCII text of at most 4300 digits; the interpreter raises a
    [ValueError] on a longer one. *)
Definition int (s : string) : Z := int_acc 0 s.

(** [bin(n)] *)
Definition bin (n : Z) : string := BinaryString.of_Z n.

(** [sum(int(bit) for bit in s)]; on the slices of [bin] it is applied to,
    [s] has the characters 0 and 1 only (lemma [bin_slice_bits]). *)
Fixpoint sum_bits (s : string) : Z :=
  match s with
  | EmptyString => 0
  | String c r => match digit c with Some d => d | None => 0 end + sum_bits r
  end.

(** ** Files *)

Definition filesystem := string -> option string.

Definition no_files : filesystem := fun _ => None.

(** [open(path, 'w').write(data)] *)
Definition write (path data : string) (fs : filesystem) : filesystem :=
  fun p => if String.eqb p path then Some data else fs p.

(** [open(path, 'a').write(data)] *)
Definition append (path data : string) (fs : filesystem) : filesystem :=
  fun p =>
    if String.eqb p path
    then Some (match fs path with Some old => old ++ data | None => data end)
    else fs p.

(** [open(path, 'r').read()] *)
Definition read (path : string) (fs : filesystem) : result string :=
  match fs path with
  | Some data => Ok data
  | None => Raise FileNotFoundError
  end.

(** ** Numeric library functions *)

Local Open Scope R_scope.

(** [math.ceil] *)
Definition ceil (x : R) : Z := (- Int_part (- x))%Z.

(** [x ** 0.5] for a float [x]: the square root when [0 <= x]; for a
    negative [x] the power is a complex number, which is [None] here. *)
Definition pow_half (x : R) : option R :=
  if Rlt_dec x 0 then None else Some (sqrt x).

Fixpoint Rsum (l : list R) : R :=
  match l with
  | [] => 0
  | x :: r => x + Rsum r
  end.

(** [scipy.stats.binom(n, 0.5).sf(k)]: the probability that a
    binomial(n, 1/2) variable is greater than [k]. *)
Definition binom_sf (n k : Z) : R :=
  let lo := Z.to_nat (Z.max 0 (k + 1)) in
  let hi := Z.to_nat n in
  Rsum (map (fun j => Binomial.C hi j / 2 ^ hi) (seq lo (S hi - lo))).

(** [np.cumsum] *)
Fixpoint cumsum_from (acc : Z) (l : list Z) : list Z :=
  match l with
  | [] => []
  | x :: r => (acc + x)%Z :: cumsum_from (acc + x)%Z r
  end.
Definition cumsum (l : list Z) : list Z := cumsum_from 0%Z l.

(** [np.arange(n)] *)
Definition arange (n : Z) : list Z := map Z.of_nat (seq 0 (Z.to_nat n)).

(** [a - b] on two arrays of one length *)
Definition array_sub (a b : list Z) : list Z :=
  map (fun p => (fst p - snd p)%Z) (combine a b).

End Py.

(* ================================================================== *)
(** * qbyte_headless.py: class QByteHeadless *)
(* ================================================================== *)

Module QByteHeadless.

Import Py.
Local Open Scope string_scope.
Local Open Scope Z_scope.

(** The six parameters of a run (the attributes set first in
    [__init__]). *)
Record settings := {
  ColorZ : Q;
  RotZ : Q;
  NEDspeed : Z;
  UseTrueRNG : bool;
  HALO : bool;
  TurboUse : bool
}.

(** An entry of [self.qbyte_data]. *)
Record trial := {
  timestamp : Z;
  bit_sum : Z;
  values : list Z
}.

(** The dictionary [self.events]. *)
Record counters := {
  color_events : Z;
  rotation_events : Z;
  qbyte_lines : Z
}.

(** The attributes computed under "Calculate statistics". *)
Record thresholds := {
  EX : Z;
  ColorThres : R;
  RotThres : R;
  ActionNumC : Z;
  Pmod_Color : R;
  ActionNumR : Z;
  Pmod_Rot : R
}.

(** A constructed [QByteHeadless] object. *)
Record self := {
  mode : string;
  remarks : string;
  outpath : string;
  attrs : settings;
  qbyte_data : list trial;
  timestamps : list Z;
  events : counters;
  starttime : Z;
  outfile_path : string;
  cmtfile_path : string;
  stats : thresholds
}.

(** What one trial takes from outside: [int(time.time()*1000)] and
    [np.random.randint(0, 256, size=self.NEDspeed).tolist()]. *)
Record draw := {
  clock : Z;
  randint : list Z
}.

(** What the random source guarantees about a draw. *)
Definition sampled (speed : Z) (d : draw) : Prop :=
  len (randint d) = speed /\ Forall (fun v => 0 <= v < 256) (randint d).

(** The value of [get_results]. *)
Record summary := {
  total_iterations : Z;
  bit_sums : list Z;
  cumulative_deviation : list Z;
  std_dev : list R
}.

Record results := {
  file_info : string * string * Z;
  parameters : settings;
  statistics : Z * R * Z * R;
  res_events : counters;
  data_summary : summary
}.

(** An element of [events_this_iteration] and a value yielded by
    [generate_continuous_data]. *)
Record event_msg := {
  type_ : string;
  ev_timestamp : Z
}.

Record iteration_result := {
  iteration : Z;
  it_timestamp : Z;
  it_bit_sum : Z;
  it_events : list event_msg;
  it_values : list Z
}.

Definition nl : string := String newline EmptyString.

Definition default_settings : settings :=
  {| ColorZ := 1.65; RotZ := 1.85; NEDspeed := 250;
     UseTrueRNG := false; HALO := true; TurboUse := false |}.

Definition set_timestamps (o : self) (l : list Z) : self :=
  {| mode := mode o; remarks := remarks o; outpath := outpath o;
     attrs := attrs o; qbyte_data := qbyte_data o; timestamps := l;
     events := events o; starttime := starttime o;
     outfile_path := outfile_path o; cmtfile_path := cmtfile_path o;
     stats := stats o |}.

Definition set_qbyte_data (o : self) (l : list trial) : self :=
  {| mode := mode o; remarks := remarks o; outpath := outpath o;
     attrs := attrs o; qbyte_data := l; timestamps := timestamps o;
     events := events o; starttime := starttime o;
     outfile_path := outfile_path o; cmtfile_path := cmtfile_path o;
     stats := stats o |}.

Definition set_events (o : self) (e : counters) : self :=
  {| mode := mode o; remarks := remarks o; outpath := outpath o;
     attrs := attrs o; qbyte_data := qbyte_data o;
     timestamps := timestamps o; events := e; starttime := starttime o;
     outfile_path := outfile_path o; cmtfile_path := cmtfile_path o;
     stats := stats o |}.

(** [self.events['color_events'] += 1] and its two siblings *)
Definition incr_color (e : counters) : counters :=
  {| color_events := color_events e + 1;
     rotation_events := rotation_events e;
     qbyte_lines := qbyte_lines e |}.
Definition incr_rotation (e : counters) : counters :=
  {| color_events := color_events e;
     rotation_events := rotation_events e + 1;
     qbyte_lines := qbyte_lines e |}.
Definition incr_qbyte (e : counters) : counters :=
  {| color_events := color_events e;
     rotation_events := rotation_events e;
     qbyte_lines := qbyte_lines e + 1 |}.

(** [math.ceil((z*((8*speed*0.25)**0.5))+(4*speed))] in exact arithmetic
    ([Binary64.action_number] is the computation with its rounding).  With
    a negative [speed] the power is complex, so is the sum, and
    [math.ceil] raises [TypeError]. *)
Definition action_number (z : Q) (speed : Z) : result Z :=
  match pow_half (IZR (8 * speed) * 0.25) with
  | Some root => Ok (ceil (Q2R z * root + IZR (4 * speed)))
  | None => Raise TypeError
  end.

(** [(scipy.stats.binom((speed*8), 0.5).sf(action-1))*2] *)
Definition pmod (speed action : Z) : R :=
  (binom_sf (speed * 8) (action - 1) * 2)%R.

(** The block "Calculate statistics" of [__init__]. *)
Definition calculate (a : settings) : result thresholds :=
  let speed := NEDspeed a in
  bind (action_number (ColorZ a) speed) (fun numC =>
  bind (action_number (RotZ a) speed) (fun numR =>
  let root := sqrt (IZR (speed * 8) * 0.25) in
  Ok {| EX := speed * 4;
        ColorThres := (Q2R (ColorZ a) * root)%R;
        RotThres := (Q2R (RotZ a) * root)%R;
        ActionNumC := numC;
        Pmod_Color := pmod speed numC;
        ActionNumR := numR;
        Pmod_Rot := pmod speed numR |})).

(** ['T' if self.TurboUse else 'F'] *)
Definition turbo_flag (b : bool) : string := if b then "T" else "F".

(** The f-string of a QBYTE line. *)
Definition qbyte_line (vals : list Z) (ts : Z) (turbo : bool) : string :=
  "QBYTE," ++ join "," (map str vals) ++ "," ++ str ts ++ ","
  ++ turbo_flag turbo.

(** The loop "Calculate bit sum". *)
Definition count_bits (vals : list Z) : Z :=
  fold_left (fun acc val => acc + sum_bits (drop 3 (bin (256 + val))))
            vals 0.

Section Class.

(** The directory of the log files (derived from the module's path). *)
Variable QBYTE_DIR : string.

(** The text of a float in an f-string. *)
Variable float_str : Q -> string.

(** The header line written by [__init__]. *)
Definition header_line (a : settings) : string :=
  "ColorZ: " ++ float_str (ColorZ a) ++ " RotZ: " ++ float_str (RotZ a)
  ++ " RNG params: " ++ str_bool (UseTrueRNG a) ++ " "
  ++ str_bool (HALO a) ++ " " ++ str_bool (TurboUse a).

(** [f'{self.outpath}/QB_{int(self.starttime/1000)}_{self.remarks}'] *)
Definition file_stem (start : Z) (rem : string) : string :=
  QBYTE_DIR ++ "/QB_" ++ str (Z.quot start 1000) ++ "_" ++ rem.

(** [__init__] from "Initialize data structures" on, as a function of
    the six attribute values [a] set before it and of the clock: it
    creates the output file with the header, then computes the
    statistics. *)
Definition init_with (a : settings) (md rem : string) (now : Z)
           (fs : filesystem) : filesystem * result self :=
  let outfile := file_stem now rem ++ ".txt" in
  let cmtfile := file_stem now rem ++ "_C.txt" in
  let fs' := write outfile (header_line a ++ nl) fs in
  (fs',
   bind (calculate a) (fun st =>
   Ok {| mode := md; remarks := rem; outpath := QBYTE_DIR;
         attrs := a;
         qbyte_data := []; timestamps := [];
         events := {| color_events := 0; rotation_events := 0;
                      qbyte_lines := 0 |};
         starttime := now;
         outfile_path := outfile; cmtfile_path := cmtfile;
         stats := st |})).

(** [QByteHeadless(mode, remarks)] *)
Definition __init__ (md rem : string) (now : Z) (fs : filesystem)
  : filesystem * result self :=
  init_with default_settings md rem now fs.

End Class.

(** The body of the loop of [generate_bulk_data]. *)
Definition bulk_body (d : draw) (st : filesystem * self)
  : filesystem * self :=
  let '(fs, o) := st in
  let ts := clock d in
  let o := set_timestamps o (timestamps o ++ [ts]) in
  let vals := randint d in
  let bits := count_bits vals in
  let line := qbyte_line vals ts (TurboUse (attrs o)) in
  let fs := append (outfile_path o) (line ++ nl) fs in
  let o := set_qbyte_data o
             (qbyte_data o
              ++ [{| timestamp := ts; bit_sum := bits; values := vals |}]) in
  let '(fs, o) :=
    if bits >? ActionNumC (stats o)
    then (append (outfile_path o) ("color," ++ str ts ++ nl) fs,
          set_events o (incr_color (events o)))
    else (fs, o) in
  let '(fs, o) :=
    if bits >? ActionNumR (stats o)
    then (append (outfile_path o) ("rotation," ++ str ts ++ nl) fs,
          set_events o (incr_rotation (events o)))
    else (fs, o) in
  (fs, set_events o (incr_qbyte (events o))).

(** [get_results] *)
Definition get_results (o : self) : results :=
  let sums := map bit_sum (qbyte_data o) in
  let cum_sum := cumsum sums in
  let expected := map (fun i => i * 4) (arange (len sums)) in
  let deviation := array_sub cum_sum expected in
  let dev_lines :=
    map (fun i => (sqrt (IZR (i * 4) * 0.25) * 1.96)%R)
        (arange (len sums)) in
  {| file_info := (outfile_path o, cmtfile_path o, starttime o);
     parameters := attrs o;
     statistics := (ActionNumC (stats o), Pmod_Color (stats o),
                    ActionNumR (stats o), Pmod_Rot (stats o));
     res_events := events o;
     data_summary :=
       {| total_iterations := len (qbyte_data o);
          bit_sums := sums;
          cumulative_deviation := deviation;
          std_dev := dev_lines |} |}.

(** [for i in range(num_iterations)], iteration [i] taking [env i]. *)
Fixpoint bulk_loop (env : nat -> draw) (i n : nat)
         (st : filesystem * self) : filesystem * self :=
  match n with
  | O => st
  | S n' => bulk_loop env (S i) n' (bulk_body (env i) st)
  end.

(** [generate_bulk_data(num_iterations)] *)
Definition generate_bulk_data (num_iterations : Z) (env : nat -> draw)
           (st : filesystem * self) : filesystem * self * results :=
  let st' := bulk_loop env 0 (Z.to_nat num_iterations) st in
  (st', get_results (snd st')).

(** The body of the loop of [generate_continuous_data]: the trial of
    index [i], up to its [yield]. *)
Definition continuous_body (i : Z) (d : draw) (st : filesystem * self)
  : filesystem * self * iteration_result :=
  let '(fs, o) := st in
  let ts := clock d in
  let o := set_timestamps o (timestamps o ++ [ts]) in
  let vals := randint d in
  let bits := count_bits vals in
  let line := qbyte_line vals ts (TurboUse (attrs o)) in
  let fs := append (outfile_path o) (line ++ nl) fs in
  let o := set_qbyte_data o
             (qbyte_data o
              ++ [{| timestamp := ts; bit_sum := bits; values := vals |}]) in
  let events_this_iteration : list event_msg := [] in
  let '(fs, o, events_this_iteration) :=
    if bits >? ActionNumC (stats o)
    then (append (outfile_path o) ("color," ++ str ts ++ nl) fs,
          set_events o (incr_color (events o)),
          (events_this_iteration
           ++ [{| type_ := "color"; ev_timestamp := ts |}])%list)
    else (fs, o, events_this_iteration) in
  let '(fs, o, events_this_iteration) :=
    if bits >? ActionNumR (stats o)
    then (append (outfile_path o) ("rotation," ++ str ts ++ nl) fs,
          set_events o (incr_rotation (events o)),
          (events_this_iteration
           ++ [{| type_ := "rotation"; ev_timestamp := ts |}])%list)
    else (fs, o, events_this_iteration) in
  let o := set_events o (incr_qbyte (events o)) in
  (fs, o,
   {| iteration := i; it_timestamp := ts; it_bit_sum := bits;
      it_events := events_this_iteration;
      it_values := slice_to vals 10 |}).

(** [generate_continuous_data()] consumed [n] times: the state reached
    and the values yielded, in order.  The generator itself never ends. *)
Fixpoint generate_continuous_data (env : nat -> draw) (i n : nat)
         (st : filesystem * self)
  : filesystem * self * list iteration_result :=
  match n with
  | O => (st, [])
  | S n' =>
      let '(st1, r) := continuous_body (Z.of_nat i) (env i) st in
      let '(st2, rs) := generate_continuous_data env (S i) n' st1 in
      (st2, r :: rs)
  end.

(** [run_qbyte(mode, remarks, iterations)] *)
Definition run_qbyte (QBYTE_DIR : string) (float_str : Q -> string)
           (md rem : string) (iterations : Z) (now : Z)
           (env : nat -> draw) (fs : filesystem)
  : filesystem * result results :=
  match __init__ QBYTE_DIR float_str md rem now fs with
  | (fs', Ok o) =>
      let '(fs'', _, r) := generate_bulk_data iterations env (fs', o) in
      (fs'', Ok r)
  | (fs', Raise e) => (fs', Raise e)
  end.

End QByteHeadless.

(* ================================================================== *)
(** * qbyte_utils.py: class QbyteDataProcessor *)
(* ================================================================== *)

Module QbyteDataProcessor.

Import Py.
Local Open Scope string_scope.
Local Open Scope Z_scope.

(** The dictionary [params]: a key that is absent is [None]. *)
Record params := {
  ColorZ : option Q;
  RotZ : option Q;
  UseTrueRNG : option bool;
  HALO : option bool;
  TurboUse : option bool;
  NEDspeed : option Z
}.

(** [params.get(key, default)] *)
Definition get {A} (value : option A) (default : A) : A :=
  match value with
  | Some v => v
  | None => default
  end.

Definition set_UseTrueRNG (p : params) (b : bool) : params :=
  {| ColorZ := ColorZ p; RotZ := RotZ p; UseTrueRNG := Some b;
     HALO := HALO p; TurboUse := TurboUse p; NEDspeed := NEDspeed p |}.
Definition set_HALO (p : params) (b : bool) : params :=
  {| ColorZ := ColorZ p; RotZ := RotZ p; UseTrueRNG := UseTrueRNG p;
     HALO := Some b; TurboUse := TurboUse p; NEDspeed := NEDspeed p |}.
Definition set_TurboUse (p : params) (b : bool) : params :=
  {| ColorZ := ColorZ p; RotZ := RotZ p; UseTrueRNG := UseTrueRNG p;
     HALO := HALO p; TurboUse := Some b; NEDspeed := NEDspeed p |}.
Definition set_NEDspeed (p : params) (n : Z) : params :=
  {| ColorZ := ColorZ p; RotZ := RotZ p; UseTrueRNG := UseTrueRNG p;
     HALO := HALO p; TurboUse := TurboUse p; NEDspeed := Some n |}.

(** The value of [calculate_statistics]. *)
Record statistics := {
  ActionNumC : Z;
  Pmod_Color : R;
  ActionNumR : Z;
  Pmod_Rot : R
}.

(** An entry of the list built by [extract_qbyte_data]. *)
Record trial := {
  timestamp : Z;
  bit_sum : Z;
  values : list Z
}.

(** The value of [count_events]. *)
Record event_counts := {
  color_events : Z;
  rotation_events : Z;
  qbyte_lines : Z;
  total_lines : Z
}.

(** The four series handed to the plotting library by
    [generate_visualization] (the rendering itself is left out). *)
Record figure := {
  rel_times : list R;
  plot_bit_sums : list Z;
  plot_deviation : list Z;
  plot_std_dev : list R
}.

(** [math.ceil((z*((8*speed*0.25)**0.5))+(4*speed))] in exact arithmetic
    ([Binary64.action_number] is the computation with its rounding). *)
Definition action_number (z : Q) (speed : Z) : result Z :=
  match pow_half (IZR (8 * speed) * 0.25) with
  | Some root => Ok (ceil (Q2R z * root + IZR (4 * speed)))
  | None => Raise TypeError
  end.

(** [calculate_statistics(params)] *)
Definition calculate_statistics (p : params) : result statistics :=
  let z_color := get (ColorZ p) 1.65%Q in
  let z_rot := get (RotZ p) 1.85%Q in
  let speed := get (NEDspeed p) 250 in
  bind (action_number z_color speed) (fun numC =>
  let pC := (binom_sf (speed * 8) (numC - 1) * 2)%R in
  bind (action_number z_rot speed) (fun numR =>
  let pR := (binom_sf (speed * 8) (numR - 1) * 2)%R in
  Ok {| ActionNumC := numC; Pmod_Color := pC;
        ActionNumR := numR; Pmod_Rot := pR |})).

(** The inner loop of [extract_qbyte_data] over [parts[:-2]]. *)
Definition scan_values (fields : list string) : Z * list Z :=
  fold_left
    (fun (acc : Z * list Z) val =>
       if isdigit val
       then (fst acc + sum_bits (drop 3 (bin (256 + int val))),
             (snd acc ++ [int val])%list)
       else acc)
    fields (0, []).

(** The body of the loop of [extract_qbyte_data]. *)
Definition extract_line (acc : list trial * list Z) (line : string)
  : list trial * list Z :=
  if contains "QBYTE" line
  then
    let parts := split "," line in
    if len parts >? 2
    then
      let ts := if isdigit (last2 parts "") then int (last2 parts "")
                else 0 in
      let '(bits, vals) := scan_values (slice_to parts (-2)) in
      ((fst acc
        ++ [{| timestamp := ts; bit_sum := bits; values := vals |}])%list,
       (snd acc ++ [ts])%list)
    else acc
  else acc.

(** [extract_qbyte_data(lines, limit)], on ASCII lines whose digit fields
    [int] accepts (at most 4300 digits): there it returns, and raises
    nothing. *)
Definition extract_qbyte_data (lines : list string) (limit : Z)
  : list trial * list Z :=
  fold_left extract_line (slice lines 1 (limit + 1)) ([], []).

(** [count_events(lines)] *)
Definition count_events (lines : list string) : event_counts :=
  {| color_events := len (filter (contains "color") lines);
     rotation_events := len (filter (contains "rotation") lines);
     qbyte_lines := len (filter (contains "QBYTE") lines);
     total_lines := len lines |}.

(** The arithmetic of [generate_visualization] on the extracted data. *)
Definition plot_series (data : list trial) (stamps : list Z) : figure :=
  let t0 := nth 0 stamps 0 in
  let sums := map bit_sum data in
  let cum_sum := cumsum sums in
  let expected := map (fun i => i * 4) (arange (len sums)) in
  {| rel_times := map (fun t => (IZR (t - t0) / 3600000)%R) stamps;
     plot_bit_sums := sums;
     plot_deviation := array_sub cum_sum expected;
     plot_std_dev :=
       map (fun i => (sqrt (IZR (i * 4) * 0.25) * 1.96)%R)
           (arange (len sums)) |}.

Section Class.

(** [float(s)]: the value of the text [s], [None] when [float] raises
    [ValueError]. *)
Variable float : string -> option Q.

Definition to_float (s : string) : result Q :=
  match float s with
  | Some q => Ok q
  | None => Raise ValueError
  end.

(** The block "Parse RNG parameters". *)
Definition parse_rng (header : list string) (p : params) : params :=
  if len header >? 5
  then
    let p := set_UseTrueRNG p (String.eqb (nth 5 header "") "True") in
    let p := if len header >? 6
             then set_HALO p (String.eqb (nth 6 header "") "True")
             else p in
    if len header >? 7
    then set_TurboUse p (String.eqb (nth 7 header "") "True")
    else p
  else p.

(** The block "Get first line to determine NEDspeed". *)
Definition parse_first_line (lines : list string) (p : params) : params :=
  if len lines >? 1
  then
    let firstline := split "," (nth 1 lines "") in
    let p := set_NEDspeed p (len firstline - 2) in
    set_TurboUse p (String.eqb (last1 firstline "") "T")
  else p.

(** [parse_file_header(file_path)] *)
Definition parse_file_header (file_path : string) (fs : filesystem)
  : result (params * list string) :=
  bind (read file_path fs) (fun text =>
  let lines := split newline text in
  let header := split " " (nth 0 lines "") in
  bind (if len header >? 1 then to_float (nth 1 header "")
        else Ok 1.65%Q) (fun z_color =>
  bind (if len header >? 3 then to_float (nth 3 header "")
        else Ok 1.85%Q) (fun z_rot =>
  let p := {| ColorZ := Some z_color; RotZ := Some z_rot;
              UseTrueRNG := None; HALO := None; TurboUse := None;
              NEDspeed := None |} in
  let p := parse_rng header p in
  let p := parse_first_line lines p in
  Ok (p, lines)))).

(** [generate_visualization(file_path, limit)]: [None] when the file
    has no trial, else the plotted series.  The series are in exact
    arithmetic, and the file is one of ASCII lines whose time stamps are
    small enough for [int] and for the division into hours (300 digits
    are). *)
Definition generate_visualization (file_path : string) (limit : Z)
           (fs : filesystem) : result (option figure) :=
  bind (parse_file_header file_path fs) (fun pl =>
  let '(data, stamps) := extract_qbyte_data (snd pl) limit in
  match stamps, data with
  | [], _ | _, [] => Ok None
  | _, _ => Ok (Some (plot_series data stamps))
  end).

End Class.

End QbyteDataProcessor.

(* ================================================================== *)
(** * app.py: the three routes that analyse a log *)
(* ================================================================== *)

Module App.

Import Py.
Local Open Scope string_scope.
Local Open Scope Z_scope.

(** A JSON answer, or an error answer with its HTTP status. *)
Inductive response (A : Type) : Type :=
| Json (a : A)
| Failed (status : Z).
Arguments Json {A} a.
Arguments Failed {A} status.

Section Routes.

Variable QBYTE_DIR : string.
Variable float : string -> option Q.

Definition path_of (filename : string) : string :=
  QBYTE_DIR ++ "/" ++ filename.

(** [os.path.exists] *)
Definition exists_ (path : string) (fs : filesystem) : bool :=
  match fs path with Some _ => true | None => false end.

(** [get_file_data(filename)], on a file that [extract_qbyte_data]
    accepts: the answer 500 then comes from the header alone. *)
Definition get_file_data (filename : string) (fs : filesystem)
  : response (QbyteDataProcessor.params
              * list QbyteDataProcessor.trial * Z) :=
  if negb (exists_ (path_of filename) fs) then Failed 404
  else
    match QbyteDataProcessor.parse_file_header float
            (path_of filename) fs with
    | Ok (p, lines) =>
        let '(data, _) :=
          QbyteDataProcessor.extract_qbyte_data lines 1000 in
        Json (p, slice_to data 100, len lines)
    | Raise _ => Failed 500
    end.

(** [get_file_stats(filename)] *)
Definition get_file_stats (filename : string) (fs : filesystem)
  : response (QbyteDataProcessor.params
              * QbyteDataProcessor.statistics
              * QbyteDataProcessor.event_counts) :=
  if negb (exists_ (path_of filename) fs) then Failed 404
  else
    match
      bind (QbyteDataProcessor.parse_file_header float
              (path_of filename) fs) (fun pl =>
      bind (QbyteDataProcessor.calculate_statistics (fst pl))
           (fun st =>
      Ok (fst pl, st, QbyteDataProcessor.count_events (snd pl))))
    with
    | Ok r => Json r
    | Raise _ => Failed 500
    end.

(** [get_visualization(filename)] *)
Definition get_visualization (filename : string) (fs : filesystem)
  : response QbyteDataProcessor.figure :=
  if negb (exists_ (path_of filename) fs) then Failed 404
  else
    match QbyteDataProcessor.generate_visualization float
            (path_of filename) 1000 fs with
    | Ok (Some img) => Json img
    | Ok None => Failed 400
    | Raise _ => Failed 500
    end.

End Routes.

End App.

(* ================================================================== *)
(** * Vocabulary of the statements *)
(* ================================================================== *)

Import Py.
Local Open Scope string_scope.
Local Open Scope Z_scope.

(** [c] occurs in [s]. *)
Fixpoint occurs (c : ascii) (s : string) : bool :=
  match s with
  | EmptyString => false
  | String x r => Ascii.eqb x c || occurs c r
  end.

(** Every character of [s] satisfies [ok]. *)
Fixpoint all_chars (ok : ascii -> bool) (s : string) : bool :=
  match s with
  | EmptyString => true
  | String x r => ok x && all_chars ok r
  end.

(** The characters of the text of a finite float: digits, the point, the
    exponent mark and the signs. *)
Definition decimal_char (c : ascii) : bool := occurs c "0123456789.e+-".
Definition decimal_text (s : string) : bool := all_chars decimal_char s.

(** The characters of [str n]. *)
Definition int_char (c : ascii) : bool := occurs c "0123456789-".

(** The text of a file made of the lines [l], each ended by a newline. *)
Fixpoint lines_text (l : list string) : string :=
  match l with
  | [] => EmptyString
  | x :: r => x ++ QByteHeadless.nl ++ lines_text r
  end.

(** The content of a file, empty when the file does not exist. *)
Definition content (fs : filesystem) (path : string) : string :=
  match fs path with
  | Some s => s
  | None => EmptyString
  end.

(** The lines that one trial adds to the log of the object [o]. *)
Definition trial_lines (o : QByteHeadless.self) (d : QByteHeadless.draw)
  : list string :=
  let bits := QByteHeadless.count_bits (QByteHeadless.randint d) in
  let ts := QByteHeadless.clock d in
  [QByteHeadless.qbyte_line (QByteHeadless.randint d) ts
     (QByteHeadless.TurboUse (QByteHeadless.attrs o))]
  ++ (if bits >? QByteHeadless.ActionNumC (QByteHeadless.stats o)
      then ["color," ++ str ts] else [])
  ++ (if bits >? QByteHeadless.ActionNumR (QByteHeadless.stats o)
      then ["rotation," ++ str ts] else []).

(** The lines added by the trials [i], ..., [i + n - 1]. *)
Fixpoint run_lines (o : QByteHeadless.self) (env : nat -> QByteHeadless.draw)
         (i n : nat) : list string :=
  match n with
  | O => []
  | S n' => trial_lines o (env i) ++ run_lines o env (S i) n'
  end.

(** How many of the trials [i], ..., [i + n - 1] have a bit sum above
    [limit]. *)
Fixpoint above (limit : Z) (env : nat -> QByteHeadless.draw) (i n : nat)
  : Z :=
  match n with
  | O => 0
  | S n' =>
      (if QByteHeadless.count_bits (QByteHeadless.randint (env i)) >? limit
       then 1 else 0) + above limit env (S i) n'
  end.

(** The action boundary in the words of the specification:
    [ceil(z * sigma + expected)]. *)
Definition spec_expected (sampleWidth : Z) : R := (4 * IZR sampleWidth)%R.
Definition spec_sigma (sampleWidth : Z) : R :=
  sqrt (8 * IZR sampleWidth * 0.25).
Definition spec_boundary (z : Q) (sampleWidth : Z) : Z :=
  ceil (Q2R z * spec_sigma sampleWidth + spec_expected sampleWidth).

(** The cumulative deviation and the confidence envelope in the words of
    the specification, at index [i] of the bit sums [b]. *)
Definition spec_deviation (sampleWidth : Z) (b : list Z) (i : nat) : Z :=
  sum (firstn (S i) b) - 4 * sampleWidth * (Z.of_nat i + 1).
Definition spec_envelope (sampleWidth : Z) (i : nat) : R :=
  (1.96 * sqrt (4 * IZR sampleWidth * 0.25 * (INR i + 1)))%R.

(** The population count of a byte. *)
Definition popcount (v : Z) : Z :=
  sum (map (fun i => if Z.testbit v (Z.of_nat i) then 1 else 0) (seq 0 8)).

(** A parameter dictionary with every absent key of
    [calculate_statistics] filled in with its default. *)
Definition with_defaults (p : QbyteDataProcessor.params)
  : QbyteDataProcessor.params :=
  {| QbyteDataProcessor.ColorZ :=
       Some (QbyteDataProcessor.get (QbyteDataProcessor.ColorZ p) 1.65%Q);
     QbyteDataProcessor.RotZ :=
       Some (QbyteDataProcessor.get (QbyteDataProcessor.RotZ p) 1.85%Q);
     QbyteDataProcessor.UseTrueRNG := QbyteDataProcessor.UseTrueRNG p;
     QbyteDataProcessor.HALO := QbyteDataProcessor.HALO p;
     QbyteDataProcessor.TurboUse := QbyteDataProcessor.TurboUse p;
     QbyteDataProcessor.NEDspeed :=
       Some (QbyteDataProcessor.get (QbyteDataProcessor.NEDspeed p) 250) |}.

(** The analysis of a log as the routes of [app.py] chain it: the header,
    the statistics of its parameters, the event counts and the trials. *)
Definition analyze (float : string -> option Q) (file_path : string)
           (limit : Z) (fs : filesystem)
  : result (QbyteDataProcessor.params * QbyteDataProcessor.statistics
            * QbyteDataProcessor.event_counts
            * (list QbyteDataProcessor.trial * list Z)) :=
  bind (QbyteDataProcessor.parse_file_header float file_path fs) (fun pl =>
  bind (QbyteDataProcessor.calculate_statistics (fst pl)) (fun st =>
  Ok (fst pl, st, QbyteDataProcessor.count_events (snd pl),
      QbyteDataProcessor.extract_qbyte_data (snd pl) limit))).

(** A text table for the two float literals of the program, to run the
    codec on concrete logs. *)
Definition literal_str (q : Q) : string :=
  if Qeq_bool q 1.65 then "1.65"
  else if Qeq_bool q 1.85 then "1.85"
  else "0.0".

Definition literal_float (s : string) : option Q :=
  if String.eqb s "1.65" then Some 1.65%Q
  else if String.eqb s "1.85" then Some 1.85%Q
  else if String.eqb s "0.0" then Some 0%Q
  else None.

(** A bounded run with the parameters [a]: the constructor, then
    [generate_bulk_data]; [run_qbyte] is the case of the default
    parameters. *)
Definition run_with (QBYTE_DIR : string) (float_str : Q -> string)
           (a : QByteHeadless.settings) (md rem : string) (iterations : Z)
           (now : Z) (env : nat -> QByteHeadless.draw) (fs : filesystem)
  : filesystem * result (QByteHeadless.self * QByteHeadless.results) :=
  match QByteHeadless.init_with QBYTE_DIR float_str a md rem now fs with
  | (fs', Ok o) =>
      let '(fs'', o', r) :=
        QByteHeadless.generate_bulk_data iterations env (fs', o) in
      (fs'', Ok (o', r))
  | (fs', Raise e) => (fs', Raise e)
  end.

(** The bit sums of the trials [i], ..., [i + n - 1]. *)
Definition drawn_sums (env : nat -> QByteHeadless.draw) (i n : nat)
  : list Z :=
  map (fun k => QByteHeadless.count_bits (QByteHeadless.randint (env k)))
      (seq i n).

(** What the object [o'] reached from [o] by the trial of the draw [d]
    looks like. *)
Record stepped (o o' : QByteHeadless.self) (d : QByteHeadless.draw)
  : Prop := {
  step_path : QByteHeadless.outfile_path o' = QByteHeadless.outfile_path o;
  step_attrs : QByteHeadless.attrs o' = QByteHeadless.attrs o;
  step_stats : QByteHeadless.stats o' = QByteHeadless.stats o;
  step_color :
    QByteHeadless.color_events (QByteHeadless.events o')
    = QByteHeadless.color_events (QByteHeadless.events o)
      + (if QByteHeadless.count_bits (QByteHeadless.randint d)
            >? QByteHeadless.ActionNumC (QByteHeadless.stats o)
         then 1 else 0);
  step_rotation :
    QByteHeadless.rotation_events (QByteHeadless.events o')
    = QByteHeadless.rotation_events (QByteHeadless.events o)
      + (if QByteHeadless.count_bits (QByteHeadless.randint d)
            >? QByteHeadless.ActionNumR (QByteHeadless.stats o)
         then 1 else 0);
  step_qbyte :
    QByteHeadless.qbyte_lines (QByteHeadless.events o')
    = QByteHeadless.qbyte_lines (QByteHeadless.events o) + 1;
  step_data :
    QByteHeadless.qbyte_data o'
    = (QByteHeadless.qbyte_data o
       ++ [{| QByteHeadless.timestamp := QByteHeadless.clock d;
              QByteHeadless.bit_sum :=
                QByteHeadless.count_bits (QByteHeadless.randint d);
              QByteHeadless.values := QByteHeadless.randint d |}])%list;
  step_stamps :
    QByteHeadless.timestamps o'
    = (QByteHeadless.timestamps o ++ [QByteHeadless.clock d])%list
}.

(** What the object [o'] reached from [o] by the trials [i], ...,
    [i + n - 1] looks like. *)
Record ran (o o' : QByteHeadless.self) (env : nat -> QByteHeadless.draw)
       (i n : nat) : Prop := {
  ran_path : QByteHeadless.outfile_path o' = QByteHeadless.outfile_path o;
  ran_attrs : QByteHeadless.attrs o' = QByteHeadless.attrs o;
  ran_stats : QByteHeadless.stats o' = QByteHeadless.stats o;
  ran_color :
    QByteHeadless.color_events (QByteHeadless.events o')
    = QByteHeadless.color_events (QByteHeadless.events o)
      + above (QByteHeadless.ActionNumC (QByteHeadless.stats o)) env i n;
  ran_rotation :
    QByteHeadless.rotation_events (QByteHeadless.events o')
    = QByteHeadless.rotation_events (QByteHeadless.events o)
      + above (QByteHeadless.ActionNumR (QByteHeadless.stats o)) env i n;
  ran_qbyte :
    QByteHeadless.qbyte_lines (QByteHeadless.events o')
    = QByteHeadless.qbyte_lines (QByteHeadless.events o) + Z.of_nat n;
  ran_sums :
    map QByteHeadless.bit_sum (QByteHeadless.qbyte_data o')
    = (map QByteHeadless.bit_sum (QByteHeadless.qbyte_data o)
       ++ drawn_sums env i n)%list
}.

(** The number of the lines of [l] that contain the word [kw]. *)
Definition tally (kw : string) (l : list string) : Z :=
  len (filter (contains kw) l).

(** A sample source for concrete runs: the trials of even index draw 250
    bytes 255 (bit sum 2000), those of odd index 250 bytes 15 (bit sum
    1000, the expected value). *)
Definition sample_env (k : nat) : QByteHeadless.draw :=
  {| QByteHeadless.clock := 1700000000000 + 100 * Z.of_nat k;
     QByteHeadless.randint := repeat (if Nat.even k then 255 else 15) 250 |}.

(** The default parameters with another sample width. *)
Definition settings_of_width (w : Z) : QByteHeadless.settings :=
  {| QByteHeadless.ColorZ := 1.65; QByteHeadless.RotZ := 1.85;
     QByteHeadless.NEDspeed := w;
     QByteHeadless.UseTrueRNG := false; QByteHeadless.HALO := true;
     QByteHeadless.TurboUse := false |}.

(** A parameter dictionary that holds the two z values and a width. *)
Definition params_of (zc zr : Q) (w : Z) : QbyteDataProcessor.params :=
  {| QbyteDataProcessor.ColorZ := Some zc;
     QbyteDataProcessor.RotZ := Some zr;
     QbyteDataProcessor.UseTrueRNG := None;
     QbyteDataProcessor.HALO := None;
     QbyteDataProcessor.TurboUse := None;
     QbyteDataProcessor.NEDspeed := Some w |}.

(** The empty parameter dictionary. *)
Definition no_params : QbyteDataProcessor.params :=
  {| QbyteDataProcessor.ColorZ := None;
     QbyteDataProcessor.RotZ := None;
     QbyteDataProcessor.UseTrueRNG := None;
     QbyteDataProcessor.HALO := None;
     QbyteDataProcessor.TurboUse := None;
     QbyteDataProcessor.NEDspeed := None |}.

(** A sample source whose every trial is exactly average: 250 bytes 15,
    four bits set in each, a bit sum of 1000. *)
Definition average_env (k : nat) : QByteHeadless.draw :=
  {| QByteHeadless.clock := 1700000000000 + 100 * Z.of_nat k;
     QByteHeadless.randint := repeat 15 250 |}.

(** What the code computes as the deviation and as the envelope at index
    [i] of the bit sums [b]. *)
Definition code_deviation (b : list Z) (i : nat) : Z :=
  sum (firstn (S i) b) - 4 * Z.of_nat i.
Definition code_envelope (i : nat) : R := (sqrt (INR i) * 1.96)%R.

(** The threshold computation in binary64 arithmetic, as the interpreter
    evaluates it.  Every operation is the correctly rounded one of the
    processor, but for the power: the interpreter leaves [x ** 0.5] to the
    [pow] of the C library, which is close to the square root and not
    always the correctly rounded one, so [pow] is a parameter here. *)
Module Binary64.

Import PrimFloat.
Local Open Scope float_scope.

(** The doubles nearest to 1.65 and to 1.85. *)
Definition z_color : float := 0x1.a666666666666p+0.
Definition z_rot : float := 0x1.d99999999999ap+0.



(** The conversion of an [int] operand of a float operation: the nearest
    float, ties to even; [OverflowError] when the [int] is too large. *)
Definition of_int (n : Z) : result float :=
  let x := FloatOps.SF2Prim
             (SpecFloat.binary_normalize FloatOps.prec FloatOps.emax n 0
                false) in
  if is_infinity x then Raise OverflowError else Ok x.

(** [math.ceil(x)] of a float: [ValueError] on a NaN, [OverflowError] on
    an infinity. *)
Definition ceil (x : float) : result Z :=
  match FloatOps.Prim2SF x with
  | SpecFloat.S754_nan => Raise ValueError
  | SpecFloat.S754_infinity _ => Raise OverflowError
  | SpecFloat.S754_zero _ => Ok 0%Z
  | SpecFloat.S754_finite s m e =>
      Ok (if 0 <=? e
          then (if s then - (Z.pos m * 2 ^ e) else Z.pos m * 2 ^ e)
          else (if s then - (Z.pos m / 2 ^ (- e))
                else - ((- Z.pos m) / 2 ^ (- e))))%Z
  end.

(** The three keys of [params] that [calculate_statistics] reads, the z
    values as floats. *)
Record params := {
  ColorZ : option float;
  RotZ : option float;
  NEDspeed : option Z
}.

Section Power.

(** The [pow] of the C library. *)
Variable libm_pow : float -> float -> float.

(** [x ** 0.5] for a finite [x] that is not negative: the interpreter
    answers 0.0 for a zero and 1.0 for 1.0 itself, and calls [pow] for
    every other [x]. *)
Definition pow_half (x : float) : float :=
  if x =? 0 then 0 else if x =? 1 then 1 else libm_pow x 0.5.

(** [(z*((8*speed*0.25)**0.5))+(4*speed)], the operand of [math.ceil].
    [8*speed] and [4*speed] are products of [int]s, converted when they
    meet a float.  When [8*speed*0.25] is negative its power 0.5 is a
    complex number and so is the sum: this is the [TypeError] that
    [math.ceil] raises on it. *)
Definition action_value (z : float) (speed : Z) : result float :=
  bind (of_int (8 * speed)) (fun speed8 =>
  let variance := speed8 * 0.25 in
  if variance <? 0
  then bind (of_int (4 * speed)) (fun _ => Raise TypeError)
  else
    bind (of_int (4 * speed)) (fun expected =>
    Ok (z * pow_half variance + expected))).

(** [math.ceil((z*((8*speed*0.25)**0.5))+(4*speed))] *)
Definition action_number (z : float) (speed : Z) : result Z :=
  bind (action_value z speed) ceil.

(** [calculate_statistics(params)]: the two boundaries in binary64
    arithmetic, the two probabilities as the exact tail of the binomial
    law. *)
Definition calculate_statistics (p : params)
  : result QbyteDataProcessor.statistics :=
  let ColorZ_ := QbyteDataProcessor.get (ColorZ p) z_color in
  let RotZ_ := QbyteDataProcessor.get (RotZ p) z_rot in
  let speed := QbyteDataProcessor.get (NEDspeed p) 250%Z in
  bind (action_number ColorZ_ speed) (fun numC =>
  let pC := (binom_sf (speed * 8) (numC - 1) * 2)%R in
  bind (action_number RotZ_ speed) (fun numR =>
  let pR := (binom_sf (speed * 8) (numR - 1) * 2)%R in
  Ok {| QbyteDataProcessor.ActionNumC := numC;
        QbyteDataProcessor.Pmod_Color := pC;
        QbyteDataProcessor.ActionNumR := numR;
        QbyteDataProcessor.Pmod_Rot := pR |})).


End Power.


(** The empty dictionary, and a dictionary with every absent key filled
    in with its default. *)
Definition no_params : params :=
  {| ColorZ := None; RotZ := None; NEDspeed := None |}.

Definition with_defaults (p : params) : params :=
  {| ColorZ := Some (QbyteDataProcessor.get (ColorZ p) z_color);
     RotZ := Some (QbyteDataProcessor.get (RotZ p) z_rot);
     NEDspeed := Some (QbyteDataProcessor.get (NEDspeed p) 250%Z) |}.


End Binary64.

(** The characters of an ASCII text, and a line of such a text of at most
    [n] characters.  On such lines [isdigit] and [int] are those of the
    interpreter for [n <= 4300]: a digit is one of 0 to 9, and [int]
    accepts every text of digits. *)
Definition ascii_char (c : ascii) : bool := (nat_of_ascii c <? 128)%nat.
Definition plain_line (n : nat) (s : string) : Prop :=
  all_chars ascii_char s = true /\ (String.length s <= n)%nat.

(** A log of a header line and one trial line. *)
Definition sample_log : string :=
  lines_text ["ColorZ: 1.65 RotZ: 1.85"; "QBYTE,15,1700000000000,F"].

(** The characters of a binary numeral. *)
Definition bit_char (c : ascii) : bool := occurs c "01".

(** A trial as the generator stores it, seen as an entry of the list that
    [extract_qbyte_data] builds (the two dictionaries have the same
    keys). *)
Definition as_decoded (t : QByteHeadless.trial) : QbyteDataProcessor.trial :=
  {| QbyteDataProcessor.timestamp := QByteHeadless.timestamp t;
     QbyteDataProcessor.bit_sum := QByteHeadless.bit_sum t;
     QbyteDataProcessor.values := QByteHeadless.values t |}.

(** The entry of [self.qbyte_data] that the trial of the draw [d] adds. *)
Definition trial_of (d : QByteHeadless.draw) : QByteHeadless.trial :=
  {| QByteHeadless.timestamp := QByteHeadless.clock d;
     QByteHeadless.bit_sum :=
       QByteHeadless.count_bits (QByteHeadless.randint d);
     QByteHeadless.values := QByteHeadless.randint d |}.

(** The draws of a first call of [n1] trials followed by those of a
    second call. *)
Definition joined (n1 : nat) (env1 env2 : nat -> QByteHeadless.draw)
  : nat -> QByteHeadless.draw :=
  fun k => if (k <? n1)%nat then env1 k else env2 (k - n1)%nat.

(** A draw whose time stamp and values are not negative (so that their
    decimal text holds digits only). *)
Definition unsigned_draw (d : QByteHeadless.draw) : Prop :=
  0 <= QByteHeadless.clock d
  /\ Forall (fun v => 0 <= v) (QByteHeadless.randint d).

(** The two lists that [extract_qbyte_data] builds side by side: the
    second holds the time stamps of the first, and no number is
    negative. *)
Definition well_formed (acc : list QbyteDataProcessor.trial * list Z)
  : Prop :=
  snd acc = map QbyteDataProcessor.timestamp (fst acc)
  /\ Forall (fun t => 0 <= QbyteDataProcessor.timestamp t
                      /\ 0 <= QbyteDataProcessor.bit_sum t
                      /\ Forall (fun v => 0 <= v)
                                (QbyteDataProcessor.values t)) (fst acc).

(* ================================================================== *)
(** * Strings: splitting, searching, the text of an integer *)
(* ================================================================== *)

Section StringFacts.

Lemma append_assoc (a b c : string) : (a ++ b) ++ c = a ++ (b ++ c).
Proof. induction a as [|x a IH]; simpl; [reflexivity | now rewrite IH]. Qed.

Lemma append_nil_r (a : string) : a ++ "" = a.
Proof. induction a as [|x a IH]; simpl; [reflexivity | now rewrite IH]. Qed.

Lemma occurs_app c a b : occurs c (a ++ b) = occurs c a || occurs c b.
Proof.
  induction a as [|x a IH]; simpl; [reflexivity|].
  now rewrite IH, orb_assoc.
Qed.

Lemma all_chars_app ok a b :
  all_chars ok (a ++ b) = all_chars ok a && all_chars ok b.
Proof.
  induction a as [|x a IH]; simpl; [reflexivity|].
  now rewrite IH, andb_assoc.
Qed.

(** A character rejected by [ok] does not occur in a text accepted
    by it. *)
Lemma all_chars_occurs ok c s :
  all_chars ok s = true -> ok c = false -> occurs c s = false.
Proof.
  induction s as [|x s IH]; simpl; intros Hs Hc; [reflexivity|].
  apply andb_prop in Hs as [Hx Hs].
  rewrite (IH Hs Hc), orb_false_r.
  destruct (Ascii.eqb_spec x c) as [->|]; [congruence | reflexivity].
Qed.

(** ** [split] *)

Lemma split_not_nil sep s : split sep s <> [].
Proof.
  destruct s as [|c r]; simpl; [discriminate|].
  destruct (Ascii.eqb c sep); [discriminate|].
  destruct (split sep r); discriminate.
Qed.

(** Splitting distributes over a separator: the pieces of
    [a + sep + b] are those of [a] followed by those of [b]. *)
Lemma split_app_sep sep a b :
  split sep (a ++ String sep b) = (split sep a ++ split sep b)%list.
Proof.
  induction a as [|c a IH]; simpl.
  - now rewrite Ascii.eqb_refl.
  - destruct (Ascii.eqb c sep); [now rewrite IH|].
    rewrite IH.
    pose proof (split_not_nil sep a) as Hne.
    destruct (split sep a) as [|h t]; [contradiction | reflexivity].
Qed.

Lemma split_no_sep sep s : occurs sep s = false -> split sep s = [s].
Proof.
  induction s as [|c r IH]; simpl; intros H; [reflexivity|].
  apply orb_false_elim in H as [Hc Hr].
  rewrite Hc, (IH Hr). reflexivity.
Qed.

Lemma split_line sep a b :
  occurs sep a = false ->
  split sep (a ++ String sep b) = a :: split sep b.
Proof. intros H. now rewrite split_app_sep, (split_no_sep _ _ H). Qed.

(** The lines of a text written line by line. *)
Lemma split_lines_text l :
  Forall (fun x => occurs newline x = false) l ->
  split newline (lines_text l) = (l ++ [""])%list.
Proof.
  induction 1 as [|x r Hx _ IH]; simpl; [reflexivity|].
  unfold QByteHeadless.nl. simpl.
  now rewrite (split_line _ _ _ Hx), IH.
Qed.

Lemma lines_text_app l1 l2 :
  lines_text (l1 ++ l2) = lines_text l1 ++ lines_text l2.
Proof.
  induction l1 as [|x r IH]; simpl; [reflexivity|].
  now rewrite IH, !append_assoc.
Qed.

(** The pieces of a joined list are its items, when no item holds the
    separator. *)
Lemma split_join sep items :
  items <> [] ->
  Forall (fun x => occurs sep x = false) items ->
  split sep (join (String sep "") items) = items.
Proof.
  induction items as [|x r IH]; intros Hne Hall; [contradiction|].
  inversion Hall as [|? ? Hx Hr]; subst.
  destruct r as [|y r'].
  - simpl. now apply split_no_sep.
  - change (join (String sep "") (x :: y :: r'))
      with (x ++ String sep (join (String sep "") (y :: r'))).
    rewrite (split_line _ _ _ Hx). f_equal.
    apply IH; [discriminate | assumption].
Qed.

(** ** [in] *)

Lemma prefix_occurs c n h :
  String.prefix n h = true -> occurs c n = true -> occurs c h = true.
Proof.
  revert h; induction n as [|x n IH]; intros h Hp Hc; [discriminate|].
  destruct h as [|y h]; simpl in Hp; [discriminate|].
  destruct (ascii_dec x y) as [->|]; [|discriminate].
  simpl in *. destruct (Ascii.eqb y c); [reflexivity|]. simpl in *.
  now apply IH.
Qed.

(** A text that lacks a character of the needle does not contain it. *)
Lemma contains_absent c n h :
  occurs c n = true -> occurs c h = false -> contains n h = false.
Proof.
  intros Hn. induction h as [|y h IH]; intros Hh.
  - destruct n; [discriminate | reflexivity].
  - simpl in Hh. apply orb_false_elim in Hh as [Hy Hh].
    change (contains n (String y h))
      with (String.prefix n (String y h) || contains n h).
    rewrite (IH Hh), orb_false_r.
    destruct (String.prefix n (String y h)) eqn:Hp; [|reflexivity].
    pose proof (prefix_occurs c _ _ Hp Hn) as Ho.
    simpl in Ho. rewrite Hy, Hh in Ho. discriminate.
Qed.

Lemma prefix_app n r : String.prefix n (n ++ r) = true.
Proof.
  induction n as [|x n IH]; simpl; [now destruct r|].
  destruct (ascii_dec x x); [assumption | contradiction].
Qed.

Lemma contains_unfold n h :
  contains n h
  = String.prefix n h
    || match h with
       | EmptyString => false
       | String _ r => contains n r
       end.
Proof. destruct h; reflexivity. Qed.

Lemma contains_prefix n r : contains n (n ++ r) = true.
Proof. now rewrite contains_unfold, prefix_app. Qed.

(** ** [str] *)

Lemma uint_text_digits d :
  all_chars int_char (DecimalString.NilEmpty.string_of_uint d) = true.
Proof. induction d; simpl; try rewrite IHd; reflexivity. Qed.

Lemma str_int_chars n : all_chars int_char (str n) = true.
Proof.
  unfold str, DecimalString.NilZero.string_of_int,
    DecimalString.NilZero.string_of_uint.
  destruct (Z.to_int n) as [d|d].
  - destruct d; try reflexivity; apply uint_text_digits.
  - destruct d; try reflexivity;
      change (all_chars int_char (String "-" ?s)) with (all_chars int_char s);
      apply (uint_text_digits).
Qed.

Lemma str_lacks c n : int_char c = false -> occurs c (str n) = false.
Proof. apply all_chars_occurs, str_int_chars. Qed.

Lemma decimal_lacks c s :
  decimal_text s = true -> decimal_char c = false -> occurs c s = false.
Proof. apply all_chars_occurs. Qed.

Lemma join_str_lacks c vals :
  int_char c = false -> Ascii.eqb ","%char c = false ->
  occurs c (join "," (map str vals)) = false.
Proof.
  intros Hc Hcomma. induction vals as [|v r IH]; [reflexivity|].
  destruct r as [|w r'].
  - simpl. now apply str_lacks.
  - change (join "," (map str (v :: w :: r')))
      with (str v ++ String "," (join "," (map str (w :: r')))).
    rewrite occurs_app, (str_lacks _ v Hc).
    change (occurs c (String "," ?s))
      with (Ascii.eqb ","%char c || occurs c s).
    now rewrite IH, Hcomma.
Qed.

End StringFacts.

(* ================================================================== *)
(** * The bit sum of a value *)
(* ================================================================== *)

Section BitSum.

Lemma raw_bits_binary (p : positive) :
  forall rest,
    all_chars bit_char rest = true ->
    all_chars bit_char (BinaryString.Raw.of_pos p rest) = true.
Proof.
  induction p as [p IH|p IH|]; intros rest Hrest; cbn [BinaryString.Raw.of_pos].
  - apply IH. cbn [all_chars]. now rewrite Hrest.
  - apply IH. cbn [all_chars]. now rewrite Hrest.
  - cbn [all_chars]. now rewrite Hrest.
Qed.

Lemma drop_all_chars ok n :
  forall s, all_chars ok s = true -> all_chars ok (drop n s) = true.
Proof.
  induction n as [|n IH]; intros s Hs; [exact Hs|].
  destruct s as [|c r]; [reflexivity|].
  cbn [drop]. apply IH. cbn [all_chars] in Hs.
  now apply andb_prop in Hs as [_ Hr].
Qed.

(** The slice [bin(n)[3:]] holds binary digits only, for every integer
    [n]: [int(bit)] never fails on it. *)
Lemma bin_slice_bits (n : Z) : all_chars bit_char (drop 3 (bin n)) = true.
Proof.
  unfold bin, BinaryString.of_Z, BinaryString.of_pos.
  destruct n as [|p|p].
  - reflexivity.
  - cbn [drop]. apply (drop_all_chars bit_char 1).
    now apply raw_bits_binary.
  - cbn [drop]. now apply raw_bits_binary.
Qed.

(** For a byte, the sum of the digits of [bin(256 + v)[3:]] is the number
    of bits set in [v]. *)
Lemma byte_bit_sum (v : Z) :
  0 <= v < 256 -> sum_bits (drop 3 (bin (256 + v))) = popcount v.
Proof.
  intros Hv.
  assert (Hall : forallb
                   (fun k => sum_bits (drop 3 (bin (256 + Z.of_nat k)))
                             =? popcount (Z.of_nat k))
                   (seq 0 256) = true) by (vm_compute; reflexivity).
  rewrite forallb_forall in Hall.
  specialize (Hall (Z.to_nat v)).
  rewrite Z2Nat.id in Hall by lia.
  apply Z.eqb_eq, Hall, in_seq. lia.
Qed.

Lemma count_bits_from (vals : list Z) :
  forall acc,
    fold_left
      (fun a val => a + sum_bits (drop 3 (bin (256 + val)))) vals acc
    = acc + sum (map (fun val => sum_bits (drop 3 (bin (256 + val)))) vals).
Proof.
  induction vals as [|v r IH]; intros acc; cbn [fold_left map sum]; [lia|].
  rewrite IH. lia.
Qed.

(** The bit sum of a trial whose values are bytes is the total number of
    bits set in them. *)
Lemma count_bits_popcount (vals : list Z) :
  Forall (fun v => 0 <= v < 256) vals ->
  QByteHeadless.count_bits vals = sum (map popcount vals).
Proof.
  intros Hall. unfold QByteHeadless.count_bits.
  rewrite count_bits_from. cbn [Z.add]. f_equal.
  apply map_ext_in. intros v Hv.
  rewrite Forall_forall in Hall. now apply byte_bit_sum, Hall.
Qed.

End BitSum.

(* ================================================================== *)
(** * Threshold statistics *)
(* ================================================================== *)

Section Thresholds.

Local Open Scope R_scope.

(** [ceil x] is the integer [n] with [n - 1 < x <= n]. *)
Lemma ceil_spec (x : R) (n : Z) : IZR n - 1 < x <= IZR n -> ceil x = n.
Proof.
  intros [Hlo Hhi]. unfold ceil.
  rewrite <- (Int_part_spec (- x) (- n)%Z).
  - apply Z.opp_involutive.
  - rewrite opp_IZR. split; lra.
Qed.

Lemma ceil_IZR (n : Z) : ceil (IZR n) = n.
Proof. apply ceil_spec; lra. Qed.

Lemma pow_half_nonneg (x : R) : 0 <= x -> pow_half x = Some (sqrt x).
Proof.
  intros H. unfold pow_half. destruct (Rlt_dec x 0); [lra | reflexivity].
Qed.

Lemma pow_half_negative (x : R) : x < 0 -> pow_half x = None.
Proof.
  intros H. unfold pow_half. destruct (Rlt_dec x 0); [reflexivity | lra].
Qed.

(** The two classes compute the action boundary by one formula. *)
Lemma action_number_shared :
  QbyteDataProcessor.action_number = QByteHeadless.action_number.
Proof. reflexivity. Qed.

(** For a width that is not negative the code computes the boundary of
    the specification. *)
Lemma action_number_spec (z : Q) (w : Z) :
  (0 <= w)%Z -> QByteHeadless.action_number z w = Ok (spec_boundary z w).
Proof.
  intros Hw. unfold QByteHeadless.action_number.
  assert (H0 : 0 <= IZR (8 * w) * 0.25).
  { apply (IZR_le 0) in Hw. rewrite mult_IZR. lra. }
  rewrite (pow_half_nonneg H0).
  unfold spec_boundary, spec_sigma, spec_expected.
  now rewrite !mult_IZR.
Qed.

(** A negative width makes the power complex and [math.ceil] fail. *)
Lemma action_number_negative (z : Q) (w : Z) :
  (w < 0)%Z -> QByteHeadless.action_number z w = Raise TypeError.
Proof.
  intros Hw. unfold QByteHeadless.action_number.
  rewrite pow_half_negative; [reflexivity|].
  apply (IZR_lt _ 0) in Hw. rewrite mult_IZR. lra.
Qed.

(** With a width of zero the boundary is zero, whatever [z] is. *)
Lemma spec_boundary_zero (z : Q) : spec_boundary z 0 = 0%Z.
Proof.
  unfold spec_boundary, spec_sigma, spec_expected.
  replace (8 * 0 * 0.25) with 0 by lra.
  rewrite sqrt_0. apply ceil_spec. lra.
Qed.




(** [calculate_statistics] on the values it reads from the dictionary. *)
Lemma calculate_statistics_ok (p : QbyteDataProcessor.params) :
  let zc := QbyteDataProcessor.get (QbyteDataProcessor.ColorZ p) 1.65%Q in
  let zr := QbyteDataProcessor.get (QbyteDataProcessor.RotZ p) 1.85%Q in
  let w := QbyteDataProcessor.get (QbyteDataProcessor.NEDspeed p) 250%Z in
  (0 <= w)%Z ->
  QbyteDataProcessor.calculate_statistics p
  = Ok {| QbyteDataProcessor.ActionNumC := spec_boundary zc w;
          QbyteDataProcessor.Pmod_Color :=
            binom_sf (w * 8) (spec_boundary zc w - 1) * 2;
          QbyteDataProcessor.ActionNumR := spec_boundary zr w;
          QbyteDataProcessor.Pmod_Rot :=
            binom_sf (w * 8) (spec_boundary zr w - 1) * 2 |}.
Proof.
  intros zc zr w Hw. unfold QbyteDataProcessor.calculate_statistics.
  fold zc zr w. rewrite action_number_shared.
  rewrite !(action_number_spec _ Hw). reflexivity.
Qed.

Lemma calculate_statistics_negative (p : QbyteDataProcessor.params) :
  (QbyteDataProcessor.get (QbyteDataProcessor.NEDspeed p) 250 < 0)%Z ->
  QbyteDataProcessor.calculate_statistics p = Raise TypeError.
Proof.
  intros Hw. unfold QbyteDataProcessor.calculate_statistics.
  rewrite action_number_shared, (action_number_negative _ Hw).
  reflexivity.
Qed.

(** The block "Calculate statistics" of the constructor. *)
Lemma calculate_ok (a : QByteHeadless.settings) :
  (0 <= QByteHeadless.NEDspeed a)%Z ->
  exists st,
    QByteHeadless.calculate a = Ok st
    /\ QByteHeadless.ActionNumC st
       = spec_boundary (QByteHeadless.ColorZ a) (QByteHeadless.NEDspeed a)
    /\ QByteHeadless.ActionNumR st
       = spec_boundary (QByteHeadless.RotZ a) (QByteHeadless.NEDspeed a)
    /\ QByteHeadless.EX st = (QByteHeadless.NEDspeed a * 4)%Z.
Proof.
  intros Hw. unfold QByteHeadless.calculate.
  rewrite !(action_number_spec _ Hw). simpl.
  eexists. split; [reflexivity|]. simpl. auto.
Qed.

Lemma calculate_negative (a : QByteHeadless.settings) :
  (QByteHeadless.NEDspeed a < 0)%Z ->
  QByteHeadless.calculate a = Raise TypeError.
Proof.
  intros Hw. unfold QByteHeadless.calculate.
  now rewrite (action_number_negative _ Hw).
Qed.

End Thresholds.

(* ================================================================== *)
(** * The threshold computation in binary64 arithmetic *)
(* ================================================================== *)

Section Binary64Facts.

Import SpecFloat.

Variable libm_pow : PrimFloat.float -> PrimFloat.float -> PrimFloat.float.







(** With the width -1 the sum is complex, whatever z is. *)
Lemma action_number_minus_one (z : PrimFloat.float) :
  Binary64.action_number libm_pow z (-1) = Raise TypeError.
Proof. reflexivity. Qed.



Local Open Scope R_scope.

Lemma sqrt_of_square (x : R) : 0 <= x -> sqrt (x * x) = x.
Proof. apply sqrt_square. Qed.



End Binary64Facts.

(* ================================================================== *)
(** * The generation engine: what a trial and a run do *)
(* ================================================================== *)

(** Runs the body of a trial loop on an object given by its fields, and
    splits on the two comparisons with the boundaries. *)
Ltac run_body o :=
  destruct o;
  try unfold QByteHeadless.bulk_body;
  try unfold QByteHeadless.continuous_body;
  try unfold trial_lines;
  cbn [QByteHeadless.set_timestamps QByteHeadless.set_qbyte_data
       QByteHeadless.set_events QByteHeadless.attrs QByteHeadless.stats
       QByteHeadless.outfile_path QByteHeadless.events
       QByteHeadless.qbyte_data QByteHeadless.timestamps];
  repeat match goal with
         | |- context [if ?c then _ else _] =>
             lazymatch c with
             | (_ >? _) => destruct c
             end;
             cbn [QByteHeadless.set_timestamps QByteHeadless.set_qbyte_data
                  QByteHeadless.set_events QByteHeadless.attrs
                  QByteHeadless.stats QByteHeadless.outfile_path
                  QByteHeadless.events QByteHeadless.qbyte_data
                  QByteHeadless.timestamps fst snd]
         end.

Section Generation.

Import QByteHeadless.

Lemma content_append path data fs :
  content (append path data fs) path = content fs path ++ data.
Proof.
  unfold content, append. rewrite String.eqb_refl.
  destruct (fs path); reflexivity.
Qed.

Lemma append_other path data fs p :
  String.eqb p path = false -> append path data fs p = fs p.
Proof. intros H. unfold append. now rewrite H. Qed.

Lemma append_exists path data fs :
  append path data fs path = Some (content (append path data fs) path).
Proof. unfold content, append. now rewrite String.eqb_refl. Qed.

Lemma content_write path data fs : content (write path data fs) path = data.
Proof. unfold content, write. now rewrite String.eqb_refl. Qed.

Lemma write_exists path data fs : write path data fs path = Some data.
Proof. unfold write. now rewrite String.eqb_refl. Qed.

(** The lines of a trial depend on the object through its parameters and
    thresholds only. *)
Lemma trial_lines_ext o1 o2 d :
  attrs o1 = attrs o2 -> stats o1 = stats o2 ->
  trial_lines o1 d = trial_lines o2 d.
Proof. intros Ha Hs. unfold trial_lines. now rewrite Ha, Hs. Qed.

Lemma run_lines_ext o1 o2 env n :
  attrs o1 = attrs o2 -> stats o1 = stats o2 ->
  forall i, run_lines o1 env i n = run_lines o2 env i n.
Proof.
  intros Ha Hs. induction n as [|n IH]; intros i; cbn [run_lines];
    [reflexivity|].
  now rewrite IH, (trial_lines_ext o1 o2 _ Ha Hs).
Qed.

Lemma bulk_body_stepped d fs o :
  stepped o (snd (bulk_body d (fs, o))) d.
Proof.
  constructor; run_body o;
    cbn [incr_color incr_rotation incr_qbyte color_events rotation_events
         qbyte_lines set_events set_qbyte_data set_timestamps attrs stats
         outfile_path events qbyte_data timestamps];
    try reflexivity; lia.
Qed.

Lemma bulk_body_log d fs o :
  content (fst (bulk_body d (fs, o))) (outfile_path o)
  = content fs (outfile_path o) ++ lines_text (trial_lines o d).
Proof.
  run_body o; cbn [fst app lines_text];
    rewrite ?content_append, ?append_assoc, ?append_nil_r; reflexivity.
Qed.

Lemma bulk_body_other d fs o p :
  String.eqb p (outfile_path o) = false ->
  fst (bulk_body d (fs, o)) p = fs p.
Proof.
  intros Hp. revert Hp. run_body o; intros Hp;
    rewrite ?(append_other _ _ _ _ Hp); reflexivity.
Qed.

Lemma bulk_body_exists d fs o :
  fst (bulk_body d (fs, o)) (outfile_path o)
  = Some (content (fst (bulk_body d (fs, o))) (outfile_path o)).
Proof.
  run_body o; apply append_exists.
Qed.

(** The streaming loop does to the object and the log what the bounded
    loop does. *)
Lemma continuous_body_state i d st :
  fst (continuous_body i d st) = bulk_body d st.
Proof.
  destruct st as [fs o]. run_body o; reflexivity.
Qed.

Lemma bulk_loop_ran env n :
  forall i (fs : filesystem) o, ran o (snd (bulk_loop env i n (fs, o))) env i n.
Proof.
  induction n as [|n IH]; intros i fs o.
  - constructor; cbn; rewrite ?app_nil_r; try reflexivity; lia.
  - cbn [bulk_loop].
    pose proof (bulk_body_stepped (env i) fs o) as Hs.
    remember (bulk_body (env i) (fs, o)) as st1 eqn:E.
    destruct st1 as [fs1 o1].
    cbn [snd] in Hs.
    specialize (IH (S i) fs1 o1). destruct IH, Hs.
    constructor; try congruence.
    + rewrite ran_color0, step_color0, step_stats0. cbn [above]. lia.
    + rewrite ran_rotation0, step_rotation0, step_stats0. cbn [above]. lia.
    + rewrite ran_qbyte0, step_qbyte0. lia.
    + rewrite ran_sums0, step_data0, map_app, <- app_assoc.
      reflexivity.
Qed.

Lemma bulk_loop_log env n :
  forall i (fs : filesystem) o,
    content (fst (bulk_loop env i n (fs, o))) (outfile_path o)
    = content fs (outfile_path o) ++ lines_text (run_lines o env i n).
Proof.
  induction n as [|n IH]; intros i fs o.
  - cbn. now rewrite append_nil_r.
  - cbn [bulk_loop run_lines].
    pose proof (bulk_body_stepped (env i) fs o) as Hs.
    pose proof (bulk_body_log (env i) fs o) as Hl.
    remember (bulk_body (env i) (fs, o)) as st1 eqn:E.
    destruct st1 as [fs1 o1].
    cbn [fst snd] in Hs, Hl. destruct Hs.
    rewrite <- step_path0, IH, step_path0, Hl, lines_text_app, append_assoc.
    now rewrite (run_lines_ext o1 o env n step_attrs0 step_stats0).
Qed.

Lemma bulk_loop_exists env n :
  forall i (fs : filesystem) o,
    fs (outfile_path o) = Some (content fs (outfile_path o)) ->
    fst (bulk_loop env i n (fs, o)) (outfile_path o)
    = Some (content (fst (bulk_loop env i n (fs, o))) (outfile_path o)).
Proof.
  induction n as [|n IH]; intros i fs o Hfs; [exact Hfs|].
  cbn [bulk_loop].
  pose proof (bulk_body_stepped (env i) fs o) as Hs.
  pose proof (bulk_body_exists (env i) fs o) as He.
  remember (bulk_body (env i) (fs, o)) as st1 eqn:E.
    destruct st1 as [fs1 o1].
  cbn [fst snd] in Hs, He. destruct Hs.
  rewrite <- step_path0. apply IH. now rewrite step_path0.
Qed.

End Generation.

(* ================================================================== *)
(** * The lines of a log and what the event counter sees in them *)
(* ================================================================== *)

Section LogLines.

Import QByteHeadless.

(** Proves that a given character does not occur in a line built from
    literals, integers and flags. *)
Ltac lacks :=
  unfold qbyte_line, header_line, turbo_flag, str_bool;
  repeat rewrite occurs_app;
  rewrite ?join_str_lacks, ?str_lacks by reflexivity;
  repeat match goal with
         | |- context [if ?b then _ else _] => destruct b
         end;
  reflexivity.

Lemma qbyte_line_newline vals ts t :
  occurs newline (qbyte_line vals ts t) = false.
Proof. lacks. Qed.

Lemma qbyte_line_c vals ts t : occurs "c" (qbyte_line vals ts t) = false.
Proof. lacks. Qed.

Lemma qbyte_line_r vals ts t : occurs "r" (qbyte_line vals ts t) = false.
Proof. lacks. Qed.

Lemma color_line_newline ts : occurs newline ("color," ++ str ts) = false.
Proof. lacks. Qed.

Lemma color_line_t ts : occurs "t" ("color," ++ str ts) = false.
Proof. lacks. Qed.

Lemma color_line_Q ts : occurs "Q" ("color," ++ str ts) = false.
Proof. lacks. Qed.

Lemma rotation_line_newline ts :
  occurs newline ("rotation," ++ str ts) = false.
Proof. lacks. Qed.

Lemma rotation_line_c ts : occurs "c" ("rotation," ++ str ts) = false.
Proof. lacks. Qed.

Lemma rotation_line_Q ts : occurs "Q" ("rotation," ++ str ts) = false.
Proof. lacks. Qed.

(** What the three searches of [count_events] answer on each kind of
    line. *)
Lemma qbyte_line_searches vals ts t :
  contains "QBYTE" (qbyte_line vals ts t) = true
  /\ contains "color" (qbyte_line vals ts t) = false
  /\ contains "rotation" (qbyte_line vals ts t) = false.
Proof.
  split; [|split].
  - unfold qbyte_line.
    change ("QBYTE," ++ ?r) with ("QBYTE" ++ String "," r).
    apply contains_prefix.
  - apply (contains_absent "c"); [reflexivity | apply qbyte_line_c].
  - apply (contains_absent "r"); [reflexivity | apply qbyte_line_r].
Qed.

Lemma color_line_searches ts :
  contains "QBYTE" ("color," ++ str ts) = false
  /\ contains "color" ("color," ++ str ts) = true
  /\ contains "rotation" ("color," ++ str ts) = false.
Proof.
  split; [|split].
  - apply (contains_absent "Q"); [reflexivity | apply color_line_Q].
  - change ("color," ++ ?r) with ("color" ++ String "," r).
    apply contains_prefix.
  - apply (contains_absent "t"); [reflexivity | apply color_line_t].
Qed.

Lemma rotation_line_searches ts :
  contains "QBYTE" ("rotation," ++ str ts) = false
  /\ contains "color" ("rotation," ++ str ts) = false
  /\ contains "rotation" ("rotation," ++ str ts) = true.
Proof.
  split; [|split].
  - apply (contains_absent "Q"); [reflexivity | apply rotation_line_Q].
  - apply (contains_absent "c"); [reflexivity | apply rotation_line_c].
  - change ("rotation," ++ ?r) with ("rotation" ++ String "," r).
    apply contains_prefix.
Qed.

Lemma tally_app kw l1 l2 :
  tally kw (l1 ++ l2) = tally kw l1 + tally kw l2.
Proof.
  unfold tally, len. rewrite filter_app, length_app. lia.
Qed.

Lemma tally_one kw x :
  tally kw [x] = if contains kw x then 1 else 0.
Proof. unfold tally. cbn [filter]. now destruct (contains kw x). Qed.

Lemma tally_nil kw : tally kw [] = 0.
Proof. reflexivity. Qed.

Lemma trial_lines_tally o d :
  tally "QBYTE" (trial_lines o d) = 1
  /\ tally "color" (trial_lines o d)
     = (if count_bits (randint d) >? ActionNumC (stats o) then 1 else 0)
  /\ tally "rotation" (trial_lines o d)
     = (if count_bits (randint d) >? ActionNumR (stats o) then 1 else 0).
Proof.
  unfold trial_lines.
  destruct (qbyte_line_searches (randint d) (clock d) (TurboUse (attrs o)))
    as (Hq1 & Hq2 & Hq3).
  destruct (color_line_searches (clock d)) as (Hc1 & Hc2 & Hc3).
  destruct (rotation_line_searches (clock d)) as (Hr1 & Hr2 & Hr3).
  destruct (count_bits (randint d) >? ActionNumC (stats o));
    destruct (count_bits (randint d) >? ActionNumR (stats o));
    rewrite !tally_app, ?tally_one, ?tally_nil,
      ?Hq1, ?Hq2, ?Hq3, ?Hc1, ?Hc2, ?Hc3, ?Hr1, ?Hr2, ?Hr3;
    repeat split; reflexivity.
Qed.

Lemma trial_lines_newline o d :
  Forall (fun x => occurs newline x = false) (trial_lines o d).
Proof.
  unfold trial_lines.
  destruct (count_bits (randint d) >? ActionNumC (stats o));
    destruct (count_bits (randint d) >? ActionNumR (stats o));
    cbn [app]; repeat constructor;
    auto using qbyte_line_newline, color_line_newline,
      rotation_line_newline.
Qed.

Lemma run_lines_newline o env n :
  forall i, Forall (fun x => occurs newline x = false) (run_lines o env i n).
Proof.
  induction n as [|n IH]; intros i; cbn [run_lines]; [constructor|].
  apply Forall_app. split; [apply trial_lines_newline | apply IH].
Qed.

(** The event counter finds in the lines of a run one QBYTE line per
    trial and one event line per crossing of a boundary. *)
Lemma run_lines_tally o env n :
  forall i,
    tally "QBYTE" (run_lines o env i n) = Z.of_nat n
    /\ tally "color" (run_lines o env i n)
       = above (ActionNumC (stats o)) env i n
    /\ tally "rotation" (run_lines o env i n)
       = above (ActionNumR (stats o)) env i n.
Proof.
  induction n as [|n IH]; intros i; cbn [run_lines above].
  - repeat split; reflexivity.
  - destruct (IH (S i)) as (Hq & Hc & Hr).
    destruct (trial_lines_tally o (env i)) as (Tq & Tc & Tr).
    rewrite !tally_app, Hq, Hc, Hr, Tq, Tc, Tr.
    repeat split; lia.
Qed.

(** The first line of a run that has one is the QBYTE line of its first
    trial. *)
Lemma run_lines_first o env i n :
  run_lines o env i (S n)
  = qbyte_line (randint (env i)) (clock (env i)) (TurboUse (attrs o))
    :: tl (run_lines o env i (S n)).
Proof. reflexivity. Qed.

Section Header.

Variable float_str : Q -> string.
Variable a : settings.
Hypothesis color_text : decimal_text (float_str (ColorZ a)) = true.
Hypothesis rot_text : decimal_text (float_str (RotZ a)) = true.

Lemma header_lacks c :
  decimal_char c = false ->
  occurs c "ColorZ: RotZ: RNG params: True False" = false ->
  occurs c (header_line float_str a) = false.
Proof.
  intros Hd Hc. unfold header_line, str_bool.
  repeat rewrite occurs_app.
  rewrite (decimal_lacks _ _ color_text Hd),
    (decimal_lacks _ _ rot_text Hd).
  cbn in Hc. repeat (apply orb_false_elim in Hc as [? Hc]).
  destruct (UseTrueRNG a), (HALO a), (TurboUse a); cbn;
    repeat match goal with
           | H : _ = false |- _ => rewrite H; clear H
           end; reflexivity.
Qed.

Lemma header_newline : occurs newline (header_line float_str a) = false.
Proof. apply header_lacks; reflexivity. Qed.

(** The header holds none of the three words the counter looks for. *)
Lemma header_searches :
  contains "QBYTE" (header_line float_str a) = false
  /\ contains "color" (header_line float_str a) = false
  /\ contains "rotation" (header_line float_str a) = false.
Proof.
  split; [|split].
  - apply (contains_absent "Q"); [|apply header_lacks]; reflexivity.
  - apply (contains_absent "c"); [|apply header_lacks]; reflexivity.
  - apply (contains_absent "n"); [|apply header_lacks]; reflexivity.
Qed.

End Header.

End LogLines.

(* ================================================================== *)
(** * Event detection and the agreement of live and recounted events *)
(* ================================================================== *)

Section EventClaims.

Import QByteHeadless.

Lemma it_events_continuous i d fs o :
  it_events (snd (continuous_body i d (fs, o)))
  = ((if count_bits (randint d) >? ActionNumC (stats o)
      then [{| type_ := "color"; ev_timestamp := clock d |}] else [])
     ++ (if count_bits (randint d) >? ActionNumR (stats o)
         then [{| type_ := "rotation"; ev_timestamp := clock d |}]
         else []))%list.
Proof.
  run_body o; reflexivity.
Qed.

(** C6: a trial raises an event of a kind (its counter goes up by one,
    its line is added to the log, and the streaming mode reports it) if
    and only if the bit sum of the trial is strictly greater than the
    action boundary of that kind; a bit sum equal to the boundary raises
    nothing.  Both generation modes do the same. *)
Theorem event_iff_bit_sum_exceeds_boundary :
  forall (d : draw) (fs : filesystem) (o : self) (i : Z),
    let bits := count_bits (randint d) in
    let after := bulk_body d (fs, o) in
    let streamed := continuous_body i d (fs, o) in
    let color := {| type_ := "color"; ev_timestamp := clock d |} in
    let rotation := {| type_ := "rotation"; ev_timestamp := clock d |} in
    fst streamed = after
    /\ content (fst after) (outfile_path o)
       = content fs (outfile_path o) ++ lines_text (trial_lines o d)
    /\ (ActionNumC (stats o) < bits ->
        color_events (events (snd after)) = color_events (events o) + 1
        /\ In ("color," ++ str (clock d)) (trial_lines o d)
        /\ In color (it_events (snd streamed)))
    /\ (bits <= ActionNumC (stats o) ->
        color_events (events (snd after)) = color_events (events o)
        /\ ~ In ("color," ++ str (clock d)) (trial_lines o d)
        /\ ~ In color (it_events (snd streamed)))
    /\ (ActionNumR (stats o) < bits ->
        rotation_events (events (snd after))
        = rotation_events (events o) + 1
        /\ In ("rotation," ++ str (clock d)) (trial_lines o d)
        /\ In rotation (it_events (snd streamed)))
    /\ (bits <= ActionNumR (stats o) ->
        rotation_events (events (snd after)) = rotation_events (events o)
        /\ ~ In ("rotation," ++ str (clock d)) (trial_lines o d)
        /\ ~ In rotation (it_events (snd streamed))).
Proof.
  intros d fs o i bits after streamed color rotation.
  pose proof (bulk_body_stepped d fs o) as Hs.
  pose proof (it_events_continuous i d fs o) as He.
  fold after in Hs. fold streamed in He. destruct Hs.
  split; [apply continuous_body_state|].
  split; [apply bulk_body_log|].
  rewrite step_color0, step_rotation0, He. unfold trial_lines.
  fold bits.
  destruct (Z.gtb_spec bits (ActionNumC (stats o)));
    destruct (Z.gtb_spec bits (ActionNumR (stats o)));
    (split; [|split; [|split]]); intros Hcmp; try lia;
    (split; [lia|]); subst color rotation;
    unfold qbyte_line; rewrite !in_app_iff; cbn [In append];
    split; try solve [intuition auto]; intros Hin;
    repeat match type of Hin with
           | _ \/ _ => destruct Hin as [Hin|Hin]
           | False => contradiction
           | _ = _ => discriminate Hin
           end.
Qed.

End EventClaims.

Section RunClaims.

Import QByteHeadless.

Variable QBYTE_DIR : string.
Variable float_str : Q -> string.

(** What a bounded run leaves: the object, its results and a log whose
    text is the header line followed by the lines of the trials. *)
Lemma run_with_log (a : settings) (md rem : string) (now : Z)
      (fs : filesystem) (env : nat -> draw) (n : nat) :
  0 <= NEDspeed a ->
  exists fs' o o0,
    run_with QBYTE_DIR float_str a md rem (Z.of_nat n) now env fs
    = (fs', Ok (o, get_results o))
    /\ snd (init_with QBYTE_DIR float_str a md rem now fs) = Ok o0
    /\ ran o0 o env 0 n
    /\ attrs o0 = a
    /\ events o0 = {| color_events := 0; rotation_events := 0;
                      qbyte_lines := 0 |}
    /\ qbyte_data o0 = []
    /\ ActionNumC (stats o0) = spec_boundary (ColorZ a) (NEDspeed a)
    /\ ActionNumR (stats o0) = spec_boundary (RotZ a) (NEDspeed a)
    /\ fs' (outfile_path o)
       = Some (lines_text (header_line float_str a :: run_lines o0 env 0 n)).
Proof.
  intros Hw. destruct (calculate_ok a Hw) as (st & Hst & HC & HR & _).
  unfold run_with, init_with. rewrite Hst. cbn [bind].
  set (o0 := {| mode := md; remarks := rem; outpath := QBYTE_DIR;
                attrs := a; qbyte_data := []; timestamps := [];
                events := _; starttime := now; outfile_path := _;
                cmtfile_path := _; stats := st |}).
  set (fs0 := write _ _ fs).
  unfold generate_bulk_data. rewrite Nat2Z.id.
  pose proof (bulk_loop_ran env n 0 fs0 o0) as Hran.
  pose proof (bulk_loop_log env n 0 fs0 o0) as Hlog.
  pose proof (bulk_loop_exists env n 0 fs0 o0) as Hex.
  destruct (bulk_loop env 0 n (fs0, o0)) as [fs1 o1].
  cbn [fst snd] in *.
  exists fs1, o1, o0. destruct Hran.
  repeat split; try assumption; try reflexivity.
  rewrite ran_path0, Hex.
  - rewrite Hlog. unfold fs0. cbn [outfile_path o0].
    rewrite content_write. cbn [lines_text].
    now rewrite append_assoc.
  - unfold fs0. cbn [outfile_path o0].
    now rewrite content_write, write_exists.
Qed.

(** C7: after a bounded run of [n] trials with any parameters, the event
    counter of the analysis, run over the lines of the log file, reports
    [n] trials and as many color and rotation events as the counters of
    the run hold. *)
Theorem recount_matches_live_counters :
  forall (a : settings) (md rem : string) (now : Z) (fs : filesystem)
         (env : nat -> draw) (n : nat),
    decimal_text (float_str (ColorZ a)) = true ->
    decimal_text (float_str (RotZ a)) = true ->
    0 <= NEDspeed a ->
    exists fs' o r text,
      run_with QBYTE_DIR float_str a md rem (Z.of_nat n) now env fs
      = (fs', Ok (o, r))
      /\ fs' (outfile_path o) = Some text
      /\ res_events r = events o
      /\ total_iterations (data_summary r) = Z.of_nat n
      /\ qbyte_lines (events o) = Z.of_nat n
      /\ QbyteDataProcessor.qbyte_lines
           (QbyteDataProcessor.count_events (split newline text))
         = Z.of_nat n
      /\ QbyteDataProcessor.color_events
           (QbyteDataProcessor.count_events (split newline text))
         = color_events (events o)
      /\ QbyteDataProcessor.rotation_events
           (QbyteDataProcessor.count_events (split newline text))
         = rotation_events (events o).
Proof.
  intros a md rem now fs env n Hc Hr Hw.
  destruct (run_with_log a md rem now fs env n Hw)
    as (fs' & o & o0 & Hrun & _ & Hran & Ha & Hev & Hdata & _ & _ & Hfs).
  exists fs', o, (get_results o),
    (lines_text (header_line float_str a :: run_lines o0 env 0 n)).
  split; [exact Hrun|]. split; [exact Hfs|].
  destruct Hran.
  assert (Hlen : len (qbyte_data o) = Z.of_nat n).
  { assert (H : List.length (map bit_sum (qbyte_data o)) = n).
    { rewrite ran_sums0, Hdata. unfold drawn_sums. cbn [map app].
      now rewrite length_map, length_seq. }
    rewrite length_map in H. unfold len. now rewrite H. }
  split; [reflexivity|]. split; [exact Hlen|].
  rewrite Hev in *. cbn [color_events rotation_events qbyte_lines] in *.
  split; [lia|].
  rewrite split_lines_text.
  2:{ constructor; [now apply header_newline | apply run_lines_newline]. }
  destruct (header_searches float_str a Hc Hr) as (Hq1 & Hq2 & Hq3).
  destruct (run_lines_tally o0 env n 0) as (Tq & Tc & Tr).
  unfold QbyteDataProcessor.count_events.
  cbn [QbyteDataProcessor.qbyte_lines QbyteDataProcessor.color_events
       QbyteDataProcessor.rotation_events].
  change (len (filter (contains ?kw) ?l)) with (tally kw l).
  change (header_line float_str a :: run_lines o0 env 0 n)
    with ([header_line float_str a] ++ run_lines o0 env 0 n)%list.
  rewrite !tally_app, !tally_one, Hq1, Hq2, Hq3, Tq, Tc, Tr.
  cbn [contains String.prefix orb]. repeat split; lia.
Qed.

End RunClaims.

(* ================================================================== *)
(** * The claims on the threshold statistics *)
(* ================================================================== *)

Section StatisticsClaims.

Variable QBYTE_DIR : string.
Variable float_str : Q -> string.
Variable float : string -> option Q.
Variable libm_pow : PrimFloat.float -> PrimFloat.float -> PrimFloat.float.


Lemma init_with_header (a : QByteHeadless.settings) md rem now
      (fs : filesystem) :
  fst (QByteHeadless.init_with QBYTE_DIR float_str a md rem now fs)
      (QByteHeadless.file_stem QBYTE_DIR now rem ++ ".txt")
  = Some (QByteHeadless.header_line float_str a ++ QByteHeadless.nl).
Proof. unfold QByteHeadless.init_with. cbn [fst]. apply write_exists. Qed.


Lemma parse_rng_NEDspeed header p :
  QbyteDataProcessor.NEDspeed (QbyteDataProcessor.parse_rng header p)
  = QbyteDataProcessor.NEDspeed p.
Proof.
  unfold QbyteDataProcessor.parse_rng.
  destruct (len header >? 5); [|reflexivity].
  destruct (len header >? 6), (len header >? 7); reflexivity.
Qed.

Lemma parse_rng_z header p :
  QbyteDataProcessor.ColorZ (QbyteDataProcessor.parse_rng header p)
  = QbyteDataProcessor.ColorZ p
  /\ QbyteDataProcessor.RotZ (QbyteDataProcessor.parse_rng header p)
     = QbyteDataProcessor.RotZ p.
Proof.
  unfold QbyteDataProcessor.parse_rng.
  destruct (len header >? 5); [|split; reflexivity].
  destruct (len header >? 6), (len header >? 7); split; reflexivity.
Qed.




End StatisticsClaims.

(* ================================================================== *)
(** * The arithmetic of the analysis *)
(* ================================================================== *)

Section AnalysisArithmetic.

Lemma deviation_from (l : list Z) :
  forall (acc : Z) (k : nat),
    array_sub (cumsum_from acc l)
              (map (fun i => i * 4) (map Z.of_nat (seq k (List.length l))))
    = map (fun j => acc + sum (firstn (S j) l) - 4 * Z.of_nat (k + j))
          (seq 0 (List.length l)).
Proof.
  induction l as [|x r IH]; intros acc k; [reflexivity|].
  cbn [List.length seq map cumsum_from].
  unfold array_sub in *. cbn [combine map fst snd].
  f_equal.
  - cbn [firstn sum]. lia.
  - rewrite IH, <- seq_shift, map_map. apply map_ext. intros j.
    cbn [firstn sum]. lia.
Qed.

Lemma arange_len {A} (l : list A) :
  arange (len l) = map Z.of_nat (seq 0 (List.length l)).
Proof. unfold arange, len. now rewrite Nat2Z.id. Qed.

(** The deviation the two classes compute from bit sums [b]. *)
Lemma deviation_code (b : list Z) :
  array_sub (cumsum b) (map (fun i => i * 4) (arange (len b)))
  = map (code_deviation b) (seq 0 (List.length b)).
Proof.
  unfold cumsum. rewrite arange_len, deviation_from.
  apply map_ext. intros j. unfold code_deviation. cbn [Nat.add]. lia.
Qed.

(** The envelope the two classes compute for [n] trials. *)
Lemma envelope_code {A} (l : list A) :
  map (fun i => (sqrt (IZR (i * 4) * 0.25) * 1.96)%R) (arange (len l))
  = map code_envelope (seq 0 (List.length l)).
Proof.
  rewrite arange_len, map_map. apply map_ext. intros i.
  unfold code_envelope. f_equal. f_equal.
  rewrite mult_IZR, <- INR_IZR_INZ. lra.
Qed.

Lemma count_bits_average : QByteHeadless.count_bits (repeat 15 250) = 1000.
Proof. vm_compute. reflexivity. Qed.

Variable QBYTE_DIR : string.
Variable float_str : Q -> string.

(** A run of one average trial with the default parameters. *)
Lemma average_run md rem now (fs : filesystem) :
  exists fs' o,
    QByteHeadless.run_qbyte QBYTE_DIR float_str md rem 1 now average_env fs
    = (fs', Ok (QByteHeadless.get_results o))
    /\ QByteHeadless.attrs o = QByteHeadless.default_settings
    /\ map QByteHeadless.bit_sum (QByteHeadless.qbyte_data o) = [1000].
Proof.
  destruct (run_with_log QBYTE_DIR float_str QByteHeadless.default_settings
              md rem now fs average_env 1)
    as (fs' & o & o0 & Hrun & Hinit & Hran & Ha & _ & Hdata & _);
    [cbn; lia|].
  exists fs', o. destruct Hran.
  split; [|split].
  - unfold QByteHeadless.run_qbyte, QByteHeadless.__init__.
    unfold run_with in Hrun. cbn [Z.of_nat Pos.of_succ_nat] in Hrun.
    destruct (QByteHeadless.init_with QBYTE_DIR float_str
                QByteHeadless.default_settings md rem now fs)
      as [fs0 [o'|e]]; [|discriminate].
    destruct (QByteHeadless.generate_bulk_data 1 average_env (fs0, o'))
      as [[fs1 o1] r1].
    now inversion Hrun.
  - congruence.
  - rewrite ran_sums0, Hdata. unfold drawn_sums.
    cbn [map app seq average_env QByteHeadless.randint].
    now rewrite count_bits_average.
Qed.

(** C2: the code does not compute the claimed deviation.  What
    [get_results] and the plotting path compute at index [i] is the sum
    of the bit sums up to [i] less [4 * i]: the width is left out and the
    count of trials is one short.  After one exactly average trial of
    width 250 (bit sum 1000) the reported deviation is 1000, where
    [(b[0]) - 4 * 250 * 1] is 0. *)
Theorem cumulative_deviation_leaves_width_out :
  forall (o : QByteHeadless.self) (data : list QbyteDataProcessor.trial)
         (stamps : list Z) (md rem : string) (now : Z) (fs : filesystem),
    QByteHeadless.cumulative_deviation
      (QByteHeadless.data_summary (QByteHeadless.get_results o))
    = map (code_deviation
             (map QByteHeadless.bit_sum (QByteHeadless.qbyte_data o)))
          (seq 0 (List.length (QByteHeadless.qbyte_data o)))
    /\ QbyteDataProcessor.plot_deviation
         (QbyteDataProcessor.plot_series data stamps)
       = map (code_deviation (map QbyteDataProcessor.bit_sum data))
             (seq 0 (List.length data))
    /\ (exists fs' r,
           QByteHeadless.run_qbyte QBYTE_DIR float_str md rem 1 now
             average_env fs = (fs', Ok r)
           /\ QByteHeadless.NEDspeed (QByteHeadless.parameters r) = 250
           /\ QByteHeadless.bit_sums (QByteHeadless.data_summary r) = [1000]
           /\ QByteHeadless.cumulative_deviation
                (QByteHeadless.data_summary r) = [1000]
           /\ spec_deviation 250 [1000] 0 = 0).
Proof.
  intros o data stamps md rem now fs. split; [|split].
  - unfold QByteHeadless.get_results.
    cbn [QByteHeadless.data_summary QByteHeadless.cumulative_deviation].
    now rewrite deviation_code, length_map.
  - unfold QbyteDataProcessor.plot_series.
    cbn [QbyteDataProcessor.plot_deviation].
    now rewrite deviation_code, length_map.
  - destruct (average_run md rem now fs) as (fs' & o1 & Hrun & Ha & Hsums).
    exists fs', (QByteHeadless.get_results o1).
    split; [exact Hrun|].
    unfold QByteHeadless.get_results.
    cbn [QByteHeadless.data_summary QByteHeadless.cumulative_deviation
         QByteHeadless.bit_sums QByteHeadless.parameters].
    rewrite Hsums, Ha. repeat split.
Qed.

(** C3: the code does not compute the claimed envelope.  What
    [get_results] and the plotting path compute at index [i] is
    [1.96 * sqrt(i)]: the width is left out and the count of trials is one
    short.  After one trial of width 250 the reported envelope is 0, where
    [1.96 * sqrt(4 * 250 * 0.25 * 1)] is above 30. *)
Theorem confidence_envelope_leaves_width_out :
  forall (o : QByteHeadless.self) (data : list QbyteDataProcessor.trial)
         (stamps : list Z) (md rem : string) (now : Z) (fs : filesystem),
    QByteHeadless.std_dev
      (QByteHeadless.data_summary (QByteHeadless.get_results o))
    = map code_envelope (seq 0 (List.length (QByteHeadless.qbyte_data o)))
    /\ QbyteDataProcessor.plot_std_dev
         (QbyteDataProcessor.plot_series data stamps)
       = map code_envelope (seq 0 (List.length data))
    /\ (exists fs' r,
           QByteHeadless.run_qbyte QBYTE_DIR float_str md rem 1 now
             average_env fs = (fs', Ok r)
           /\ QByteHeadless.NEDspeed (QByteHeadless.parameters r) = 250
           /\ QByteHeadless.std_dev (QByteHeadless.data_summary r) = [0%R]
           /\ (30 < spec_envelope 250 0)%R).
Proof.
  intros o data stamps md rem now fs. split; [|split].
  - unfold QByteHeadless.get_results.
    cbn [QByteHeadless.data_summary QByteHeadless.std_dev].
    now rewrite envelope_code, length_map.
  - unfold QbyteDataProcessor.plot_series.
    cbn [QbyteDataProcessor.plot_std_dev].
    now rewrite envelope_code, length_map.
  - destruct (average_run md rem now fs) as (fs' & o1 & Hrun & Ha & Hsums).
    exists fs', (QByteHeadless.get_results o1).
    split; [exact Hrun|]. split; [|split].
    + unfold QByteHeadless.get_results. cbn [QByteHeadless.parameters].
      now rewrite Ha.
    + unfold QByteHeadless.get_results.
      cbn [QByteHeadless.data_summary QByteHeadless.std_dev].
      rewrite envelope_code, length_map.
      assert (Hlen : List.length (QByteHeadless.qbyte_data o1) = 1%nat).
      { rewrite <- (length_map QByteHeadless.bit_sum), Hsums. reflexivity. }
      rewrite Hlen. cbn [seq map]. unfold code_envelope. cbn [INR].
      rewrite sqrt_0. f_equal. lra.
    + unfold spec_envelope. cbn [INR].
      replace (4 * 250 * 0.25 * (0 + 1))%R with 250%R by lra.
      assert (Hs : (sqrt 250 * sqrt 250 = 250)%R) by (apply sqrt_sqrt; lra).
      pose proof (sqrt_pos 250) as Hp. nra.
Qed.

End AnalysisArithmetic.

(* ================================================================== *)
(** * The log codec: what the decoder reads in a written log *)
(* ================================================================== *)

Section Codec.

Variable QBYTE_DIR : string.
Variable float_str : Q -> string.
Variable float : string -> option Q.

(** The comma fields of a QBYTE line: the tag, the values (one empty
    field when there is no value), the time stamp and the flag. *)
Lemma split_qbyte_line vals ts t :
  split "," (QByteHeadless.qbyte_line vals ts t)
  = ("QBYTE"
     :: match vals with [] => [""] | _ => map str vals end
     ++ [str ts; QByteHeadless.turbo_flag t])%list.
Proof.
  unfold QByteHeadless.qbyte_line.
  change ("QBYTE," ++ ?r) with ("QBYTE" ++ String "," r).
  rewrite split_line by reflexivity. f_equal.
  change ("," ++ ?r) with (String "," r).
  rewrite split_app_sep. f_equal.
  - destruct vals as [|v r]; [reflexivity|].
    apply (split_join ","); [discriminate|].
    apply Forall_forall. intros x Hx. apply in_map_iff in Hx as (y & <- & _).
    now apply str_lacks.
  - change (str ts ++ "," ++ ?r) with (str ts ++ String "," r).
    rewrite split_line by (now apply str_lacks).
    f_equal. now destruct t.
Qed.

Lemma len_cons {A} (x : A) l : len (x :: l) = 1 + len l.
Proof. unfold len. cbn [List.length]. lia. Qed.

Lemma len_app {A} (l1 l2 : list A) : len (l1 ++ l2) = len l1 + len l2.
Proof. unfold len. rewrite length_app. lia. Qed.

Lemma len_map {A B} (f : A -> B) l : len (map f l) = len l.
Proof. unfold len. now rewrite length_map. Qed.

Lemma len_nonneg {A} (l : list A) : 0 <= len l.
Proof. unfold len. lia. Qed.

(** The width the decoder infers from a QBYTE line of at least one value
    is one more than the number of its values. *)
Lemma qbyte_line_fields vals ts t :
  vals <> [] ->
  len (split "," (QByteHeadless.qbyte_line vals ts t)) - 2 = len vals + 1.
Proof.
  intros Hne. rewrite split_qbyte_line.
  destruct vals as [|v r]; [contradiction|]. cbv iota.
  unfold len. cbn [List.length]. rewrite length_app, length_map.
  cbn [List.length]. lia.
Qed.

Lemma qbyte_line_last vals ts t :
  last1 (split "," (QByteHeadless.qbyte_line vals ts t)) ""
  = QByteHeadless.turbo_flag t.
Proof.
  rewrite split_qbyte_line. unfold last1.
  set (front := match vals with [] => [""] | _ => map str vals end).
  replace ("QBYTE" :: front ++ [str ts; QByteHeadless.turbo_flag t])%list
    with (("QBYTE" :: front ++ [str ts])
          ++ [QByteHeadless.turbo_flag t])%list.
  - apply last_last.
  - cbn [app]. f_equal. now rewrite <- app_assoc.
Qed.

(** What [parse_first_line] reads when the file has a second line. *)
Lemma parse_first_line_second h l1 rest p :
  QbyteDataProcessor.NEDspeed
    (QbyteDataProcessor.parse_first_line (h :: l1 :: rest) p)
  = Some (len (split "," l1) - 2)
  /\ QbyteDataProcessor.TurboUse
       (QbyteDataProcessor.parse_first_line (h :: l1 :: rest) p)
     = Some (String.eqb (last1 (split "," l1) "") "T").
Proof.
  unfold QbyteDataProcessor.parse_first_line.
  rewrite !len_cons. pose proof (len_nonneg rest).
  destruct (Z.gtb_spec (1 + (1 + len rest)) 1); [|lia].
  split; reflexivity.
Qed.

(** What [parse_file_header] returns when it returns: the lines of the
    file, and parameters read from the header tokens and from the second
    line. *)
Lemma parse_file_header_ok path (fs : filesystem) text p lines :
  fs path = Some text ->
  QbyteDataProcessor.parse_file_header float path fs = Ok (p, lines) ->
  lines = split newline text
  /\ exists zc zr,
      let header := split " " (nth 0 lines "") in
      (if len header >? 1
       then QbyteDataProcessor.to_float float (nth 1 header "")
       else Ok 1.65%Q) = Ok zc
      /\ (if len header >? 3
          then QbyteDataProcessor.to_float float (nth 3 header "")
          else Ok 1.85%Q) = Ok zr
      /\ p = QbyteDataProcessor.parse_first_line lines
               (QbyteDataProcessor.parse_rng header
                  {| QbyteDataProcessor.ColorZ := Some zc;
                     QbyteDataProcessor.RotZ := Some zr;
                     QbyteDataProcessor.UseTrueRNG := None;
                     QbyteDataProcessor.HALO := None;
                     QbyteDataProcessor.TurboUse := None;
                     QbyteDataProcessor.NEDspeed := None |}).
Proof.
  intros Hfs. unfold QbyteDataProcessor.parse_file_header, read.
  rewrite Hfs. cbn [bind].
  set (lines0 := split newline text).
  set (header := split " " (nth 0 lines0 "")).
  destruct (if len header >? 1 then _ else _) as [zc|e] eqn:Ec;
    [|discriminate]. cbn [bind].
  destruct (if len header >? 3 then _ else _) as [zr|e] eqn:Er;
    [|discriminate]. cbn [bind].
  intros H. inversion H; subst. split; [reflexivity|].
  exists zc, zr. fold lines0. fold header. rewrite Ec, Er.
  repeat split.
Qed.

(** When it raises, on a file that exists, [parse_file_header] raises the
    [ValueError] of [float]. *)
Lemma parse_file_header_raise path (fs : filesystem) text e :
  fs path = Some text ->
  QbyteDataProcessor.parse_file_header float path fs = Raise e ->
  e = ValueError.
Proof.
  intros Hfs. unfold QbyteDataProcessor.parse_file_header, read.
  rewrite Hfs. cbn [bind].
  set (header := split " " (nth 0 (split newline text) "")).
  assert (Hf : forall s e', QbyteDataProcessor.to_float float s = Raise e'
                            -> e' = ValueError).
  { intros s e'. unfold QbyteDataProcessor.to_float.
    destruct (float s); [discriminate | congruence]. }
  destruct (len header >? 1).
  - destruct (QbyteDataProcessor.to_float float (nth 1 header "")) eqn:E1;
      cbn [bind]; [|intros H; inversion H; subst; eauto].
    destruct (len header >? 3).
    + destruct (QbyteDataProcessor.to_float float (nth 3 header "")) eqn:E3;
        cbn [bind]; [discriminate | intros H; inversion H; subst; eauto].
    + cbn [bind]. discriminate.
  - cbn [bind]. destruct (len header >? 3).
    + destruct (QbyteDataProcessor.to_float float (nth 3 header "")) eqn:E3;
        cbn [bind]; [discriminate | intros H; inversion H; subst; eauto].
    + cbn [bind]. discriminate.
Qed.

Section Written.

Variable a : QByteHeadless.settings.
Hypothesis color_text :
  decimal_text (float_str (QByteHeadless.ColorZ a)) = true.
Hypothesis rot_text :
  decimal_text (float_str (QByteHeadless.RotZ a)) = true.

(** The tokens of the header line that the constructor writes: nine of
    them, the flags at the indices 6, 7 and 8. *)
Lemma header_tokens :
  split " " (QByteHeadless.header_line float_str a)
  = ["ColorZ:"; float_str (QByteHeadless.ColorZ a);
     "RotZ:"; float_str (QByteHeadless.RotZ a);
     "RNG"; "params:";
     str_bool (QByteHeadless.UseTrueRNG a);
     str_bool (QByteHeadless.HALO a);
     str_bool (QByteHeadless.TurboUse a)].
Proof.
  unfold QByteHeadless.header_line.
  assert (Hc : occurs " " (float_str (QByteHeadless.ColorZ a)) = false)
    by (now apply (decimal_lacks _ _ color_text)).
  assert (Hr : occurs " " (float_str (QByteHeadless.RotZ a)) = false)
    by (now apply (decimal_lacks _ _ rot_text)).
  assert (Hb : forall b, occurs " " (str_bool b) = false)
    by (now intros []).
  change ("ColorZ: " ++ ?r) with ("ColorZ:" ++ String " " r).
  rewrite split_line by reflexivity. f_equal.
  change (?x ++ " RotZ: " ++ ?r) with (x ++ String " " ("RotZ:" ++ String " " r)).
  rewrite (split_line _ _ _ Hc). f_equal.
  rewrite split_line by reflexivity. f_equal.
  change (?x ++ " RNG params: " ++ ?r)
    with (x ++ String " " ("RNG" ++ String " " ("params:" ++ String " " r))).
  rewrite (split_line _ _ _ Hr). f_equal.
  rewrite split_line by reflexivity. f_equal.
  rewrite split_line by reflexivity. f_equal.
  change (?x ++ " " ++ ?r) with (x ++ String " " r).
  rewrite (split_line _ _ _ (Hb _)). f_equal.
  change (?x ++ " " ++ ?r) with (x ++ String " " r).
  rewrite (split_line _ _ _ (Hb _)). f_equal.
  apply split_no_sep, Hb.
Qed.

(** The lines of a log: the header, the lines of the trials, and the
    empty piece after the last newline. *)
Lemma log_lines o env i n :
  split newline
        (lines_text (QByteHeadless.header_line float_str a
                     :: run_lines o env i n))
  = (QByteHeadless.header_line float_str a
     :: run_lines o env i n ++ [""])%list.
Proof.
  rewrite split_lines_text; [reflexivity|].
  constructor; [now apply header_newline | apply run_lines_newline].
Qed.

End Written.

End Codec.

(* ================================================================== *)
(** * The claims on the log codec and on the analysis of short logs *)
(* ================================================================== *)

Section CodecClaims.

Variable QBYTE_DIR : string.
Variable float_str : Q -> string.
Variable float : string -> option Q.

Lemma parse_first_line_keeps lines p :
  QbyteDataProcessor.ColorZ (QbyteDataProcessor.parse_first_line lines p)
  = QbyteDataProcessor.ColorZ p
  /\ QbyteDataProcessor.RotZ (QbyteDataProcessor.parse_first_line lines p)
     = QbyteDataProcessor.RotZ p
  /\ QbyteDataProcessor.UseTrueRNG
       (QbyteDataProcessor.parse_first_line lines p)
     = QbyteDataProcessor.UseTrueRNG p
  /\ QbyteDataProcessor.HALO (QbyteDataProcessor.parse_first_line lines p)
     = QbyteDataProcessor.HALO p.
Proof.
  unfold QbyteDataProcessor.parse_first_line.
  destruct (len lines >? 1); repeat split.
Qed.

Lemma path_of_log now rem :
  App.path_of QBYTE_DIR
    ("QB_" ++ str (Z.quot now 1000) ++ "_" ++ rem ++ ".txt")
  = QByteHeadless.file_stem QBYTE_DIR now rem ++ ".txt".
Proof.
  unfold App.path_of, QByteHeadless.file_stem.
  now rewrite !append_assoc.
Qed.

Lemma extract_empty_line acc :
  QbyteDataProcessor.extract_line acc "" = acc.
Proof. reflexivity. Qed.

(** No trial is extracted from a log of a header line alone, with or
    without its newline. *)
Lemma extract_header_only h limit :
  QbyteDataProcessor.extract_qbyte_data [h] limit = ([], [])
  /\ QbyteDataProcessor.extract_qbyte_data [h; ""] limit = ([], []).
Proof.
  unfold QbyteDataProcessor.extract_qbyte_data, slice. split.
  - replace (bound (len [h]) 1) with 1%nat by reflexivity.
    cbn [skipn]. now rewrite firstn_nil.
  - replace (bound (len [h; ""]) 1) with 1%nat by reflexivity.
    cbn [skipn].
    destruct (bound (len [h; ""]) (limit + 1) - 1)%nat as [|k];
      [reflexivity|].
    cbn [firstn]. rewrite firstn_nil. reflexivity.
Qed.

(** C9: an empty log is analysed without error and yields no trial, but a
    log that holds the header line alone, as the constructor leaves it, is
    not: the decoder takes the empty piece after the newline of the header
    for a first trial line, infers the width -1 from it, and the
    statistics computation raises; the statistics route answers with an
    error. *)
Theorem header_only_log_raises :
  forall (a : QByteHeadless.settings) (md rem : string) (now : Z)
         (fs : filesystem) (limit : Z),
    decimal_text (float_str (QByteHeadless.ColorZ a)) = true ->
    decimal_text (float_str (QByteHeadless.RotZ a)) = true ->
    let fs' :=
      fst (QByteHeadless.init_with QBYTE_DIR float_str a md rem now fs) in
    let path := QByteHeadless.file_stem QBYTE_DIR now rem ++ ".txt" in
    fs' path = Some (QByteHeadless.header_line float_str a
                     ++ QByteHeadless.nl)
    /\ is_ok (analyze float path limit fs') = false
    /\ (forall p lines,
           QbyteDataProcessor.parse_file_header float path fs'
           = Ok (p, lines) ->
           QbyteDataProcessor.NEDspeed p = Some (-1)
           /\ QbyteDataProcessor.calculate_statistics p = Raise TypeError
           /\ QbyteDataProcessor.extract_qbyte_data lines limit = ([], []))
    /\ App.get_file_stats QBYTE_DIR float
         ("QB_" ++ str (Z.quot now 1000) ++ "_" ++ rem ++ ".txt") fs'
       = App.Failed 500
    /\ (forall path0 (fs0 : filesystem),
           fs0 path0 = Some "" ->
           exists p st c,
             analyze float path0 limit fs0 = Ok (p, st, c, ([], []))
             /\ QbyteDataProcessor.qbyte_lines c = 0).
Proof.
  intros a md rem now fs limit Hc Hr fs' path.
  assert (Hfile : fs' path = Some (QByteHeadless.header_line float_str a
                                   ++ QByteHeadless.nl))
    by apply init_with_header.
  assert (Hparse : forall p lines,
             QbyteDataProcessor.parse_file_header float path fs'
             = Ok (p, lines) ->
             QbyteDataProcessor.NEDspeed p = Some (-1)
             /\ QbyteDataProcessor.calculate_statistics p = Raise TypeError
             /\ QbyteDataProcessor.extract_qbyte_data lines limit
                = ([], [])).
  { intros p lines Hp.
    destruct (parse_file_header_ok float path fs' Hfile Hp)
      as (Hlines & zc & zr & _ & _ & Hpeq).
    unfold QByteHeadless.nl in Hlines.
    rewrite (split_line _ _ _ (header_newline float_str a Hc Hr)) in Hlines.
    cbn [split] in Hlines.
    assert (Hspeed : QbyteDataProcessor.NEDspeed p = Some (-1)).
    { rewrite Hpeq, Hlines.
      now destruct (parse_first_line_second
                      (QByteHeadless.header_line float_str a) "" []
                      (QbyteDataProcessor.parse_rng
                         (split " "
                            (nth 0 [QByteHeadless.header_line float_str a; ""]
                                 ""))
                         {| QbyteDataProcessor.ColorZ := Some zc;
                            QbyteDataProcessor.RotZ := Some zr;
                            QbyteDataProcessor.UseTrueRNG := None;
                            QbyteDataProcessor.HALO := None;
                            QbyteDataProcessor.TurboUse := None;
                            QbyteDataProcessor.NEDspeed := None |}))
        as [-> _]. }
    split; [exact Hspeed|]. split.
    - apply calculate_statistics_negative. rewrite Hspeed. cbn. lia.
    - rewrite Hlines. apply extract_header_only. }
  split; [exact Hfile|]. split; [|split; [exact Hparse|split]].
  - unfold analyze.
    destruct (QbyteDataProcessor.parse_file_header float path fs')
      as [[p lines]|e] eqn:E; [|reflexivity].
    destruct (Hparse p lines eq_refl) as (_ & Hcalc & _).
    cbn [bind fst]. now rewrite Hcalc.
  - unfold App.get_file_stats. rewrite path_of_log. fold path.
    unfold App.exists_. rewrite Hfile. cbn [negb].
    destruct (QbyteDataProcessor.parse_file_header float path fs')
      as [[p lines]|e] eqn:E; [|reflexivity].
    destruct (Hparse p lines eq_refl) as (_ & Hcalc & _).
    cbn [bind fst]. now rewrite Hcalc.
  - intros path0 fs0 Hfs0. unfold analyze.
    unfold QbyteDataProcessor.parse_file_header, read. rewrite Hfs0.
    cbn [bind split nth]. cbn [bind fst snd].
    replace (len [""] >? 1) with false by reflexivity.
    replace (len [""] >? 3) with false by reflexivity.
    cbn [bind fst snd].
    rewrite calculate_statistics_ok by (cbn; lia).
    cbn [bind]. do 3 eexists.
    split; [repeat f_equal; apply extract_header_only | reflexivity].
Qed.

Section Written.

Variable a : QByteHeadless.settings.
Hypothesis color_text :
  decimal_text (float_str (QByteHeadless.ColorZ a)) = true.
Hypothesis rot_text :
  decimal_text (float_str (QByteHeadless.RotZ a)) = true.

(** The lines of the log of a run of at least one trial: the header, the
    QBYTE line of the first trial, and the rest. *)
Lemma log_lines_first o env n :
  exists rest,
    split newline
          (lines_text (QByteHeadless.header_line float_str a
                       :: run_lines o env 0 (S n)))
    = QByteHeadless.header_line float_str a
      :: QByteHeadless.qbyte_line
           (QByteHeadless.randint (env 0%nat))
           (QByteHeadless.clock (env 0%nat))
           (QByteHeadless.TurboUse (QByteHeadless.attrs o))
      :: rest.
Proof.
  rewrite (log_lines float_str a color_text rot_text).
  rewrite run_lines_first. cbn [app]. eexists. reflexivity.
Qed.

End Written.

(** C5: the decoder does not recover the width of a written log.  For
    every run of at least one trial whose draws hold [NEDspeed] values
    (at least one), the decoder infers [NEDspeed + 1]: the record tag is
    a comma field too, so a QBYTE line has [NEDspeed + 3] fields. *)
Theorem inferred_width_is_one_more :
  forall (a : QByteHeadless.settings) (md rem : string) (now : Z)
         (fs : filesystem) (env : nat -> QByteHeadless.draw) (n : nat),
    decimal_text (float_str (QByteHeadless.ColorZ a)) = true ->
    decimal_text (float_str (QByteHeadless.RotZ a)) = true ->
    1 <= QByteHeadless.NEDspeed a ->
    QByteHeadless.sampled (QByteHeadless.NEDspeed a) (env 0%nat) ->
    exists fs' o r,
      run_with QBYTE_DIR float_str a md rem (Z.of_nat (S n)) now env fs
      = (fs', Ok (o, r))
      /\ len (split ","
                (QByteHeadless.qbyte_line
                   (QByteHeadless.randint (env 0%nat))
                   (QByteHeadless.clock (env 0%nat))
                   (QByteHeadless.TurboUse a)))
         = QByteHeadless.NEDspeed a + 3
      /\ forall p lines,
          QbyteDataProcessor.parse_file_header float
            (QByteHeadless.outfile_path o) fs' = Ok (p, lines) ->
          QbyteDataProcessor.NEDspeed p
          = Some (QByteHeadless.NEDspeed a + 1).
Proof.
  intros a md rem now fs env n Hc Hr Hw [Hlen _].
  destruct (run_with_log QBYTE_DIR float_str a md rem now fs env (S n))
    as (fs' & o & o0 & Hrun & _ & _ & Ha & _ & _ & _ & _ & Hfs); [lia|].
  assert (Hne : QByteHeadless.randint (env 0%nat) <> []).
  { intros E. rewrite E in Hlen. cbn in Hlen. lia. }
  assert (Hfields : forall t,
             len (split ","
                    (QByteHeadless.qbyte_line
                       (QByteHeadless.randint (env 0%nat))
                       (QByteHeadless.clock (env 0%nat)) t)) - 2
             = QByteHeadless.NEDspeed a + 1).
  { intros t. rewrite (qbyte_line_fields _ _ Hne). lia. }
  exists fs', o, (QByteHeadless.get_results o).
  split; [exact Hrun|]. split; [specialize (Hfields (QByteHeadless.TurboUse a)); lia|].
  intros p lines Hp.
  destruct (parse_file_header_ok float _ fs' Hfs Hp)
    as (Hlines & zc & zr & _ & _ & Hpeq).
  destruct (log_lines_first a Hc Hr o0 env n) as (rest & Hsplit).
  rewrite Hsplit in Hlines. rewrite Hpeq, Hlines.
  match goal with
  | |- QbyteDataProcessor.NEDspeed
         (QbyteDataProcessor.parse_first_line (?h :: ?l :: ?r) ?q) = _ =>
      destruct (parse_first_line_second h l r q) as [-> _]
  end.
  now rewrite Hfields.
Qed.

(** C4, as the code has it: the two z values of a written header are
    recovered by the decoder whenever their text parses back to them, and
    the turbo flag is recovered from the first trial line once the log
    holds one.  For a header that is too short, ColorZ falls back to 1.65
    when it has fewer than 2 tokens and RotZ to 1.85 when it has fewer
    than 4; the flags have no fallback value: UseTrueRNG and HALO are
    absent from the result when the header has fewer than 6 tokens, HALO
    when it has fewer than 7, and TurboUse when it has fewer than 8 and
    the file has no second line. *)
Theorem header_z_round_trip_and_fallbacks :
  forall (a : QByteHeadless.settings) (md rem : string) (now : Z)
         (fs : filesystem) (env : nat -> QByteHeadless.draw) (n : nat),
    decimal_text (float_str (QByteHeadless.ColorZ a)) = true ->
    decimal_text (float_str (QByteHeadless.RotZ a)) = true ->
    float (float_str (QByteHeadless.ColorZ a))
    = Some (QByteHeadless.ColorZ a) ->
    float (float_str (QByteHeadless.RotZ a))
    = Some (QByteHeadless.RotZ a) ->
    0 <= QByteHeadless.NEDspeed a ->
    (exists fs' o r p lines,
        run_with QBYTE_DIR float_str a md rem (Z.of_nat n) now env fs
        = (fs', Ok (o, r))
        /\ QbyteDataProcessor.parse_file_header float
             (QByteHeadless.outfile_path o) fs' = Ok (p, lines)
        /\ QbyteDataProcessor.ColorZ p = Some (QByteHeadless.ColorZ a)
        /\ QbyteDataProcessor.RotZ p = Some (QByteHeadless.RotZ a)
        /\ ((1 <= n)%nat ->
            QbyteDataProcessor.TurboUse p
            = Some (QByteHeadless.TurboUse a)))
    /\ (forall path (fs0 : filesystem) text p lines,
           fs0 path = Some text ->
           QbyteDataProcessor.parse_file_header float path fs0
           = Ok (p, lines) ->
           let header := split " " (nth 0 (split newline text) "") in
           (len header < 2 -> QbyteDataProcessor.ColorZ p = Some 1.65%Q)
           /\ (len header < 4 -> QbyteDataProcessor.RotZ p = Some 1.85%Q)
           /\ (len header < 6 ->
               QbyteDataProcessor.UseTrueRNG p = None
               /\ QbyteDataProcessor.HALO p = None)
           /\ (len header < 7 -> QbyteDataProcessor.HALO p = None)
           /\ (len header < 8 -> occurs newline text = false ->
               QbyteDataProcessor.TurboUse p = None)).
Proof.
  intros a md rem now fs env n Hc Hr Hfc Hfr Hw. split.
  - destruct (run_with_log QBYTE_DIR float_str a md rem now fs env n Hw)
      as (fs' & o & o0 & Hrun & _ & _ & Ha & _ & _ & _ & _ & Hfs).
    assert (Hparse :
      QbyteDataProcessor.parse_file_header float
        (QByteHeadless.outfile_path o) fs'
      = Ok (QbyteDataProcessor.parse_first_line
              (QByteHeadless.header_line float_str a
               :: run_lines o0 env 0 n ++ [""])
              (QbyteDataProcessor.parse_rng
                 (split " " (QByteHeadless.header_line float_str a))
                 {| QbyteDataProcessor.ColorZ :=
                      Some (QByteHeadless.ColorZ a);
                    QbyteDataProcessor.RotZ := Some (QByteHeadless.RotZ a);
                    QbyteDataProcessor.UseTrueRNG := None;
                    QbyteDataProcessor.HALO := None;
                    QbyteDataProcessor.TurboUse := None;
                    QbyteDataProcessor.NEDspeed := None |}),
            (QByteHeadless.header_line float_str a
             :: run_lines o0 env 0 n ++ [""])%list)).
    { unfold QbyteDataProcessor.parse_file_header, read. rewrite Hfs.
      cbn [bind]. rewrite (log_lines float_str a Hc Hr). cbn [nth].
      rewrite (header_tokens float_str a Hc Hr).
      replace (len _ >? 1) with true by reflexivity.
      replace (len _ >? 3) with true by reflexivity.
      cbn [nth]. unfold QbyteDataProcessor.to_float. rewrite Hfc, Hfr.
      reflexivity. }
    do 5 eexists. split; [exact Hrun|]. split; [exact Hparse|].
    match goal with
    | |- context [QbyteDataProcessor.parse_first_line ?l ?q] =>
        destruct (parse_first_line_keeps l q) as (-> & -> & _);
        destruct (parse_rng_z (split " " (QByteHeadless.header_line
                                            float_str a))
                    {| QbyteDataProcessor.ColorZ :=
                         Some (QByteHeadless.ColorZ a);
                       QbyteDataProcessor.RotZ :=
                         Some (QByteHeadless.RotZ a);
                       QbyteDataProcessor.UseTrueRNG := None;
                       QbyteDataProcessor.HALO := None;
                       QbyteDataProcessor.TurboUse := None;
                       QbyteDataProcessor.NEDspeed := None |})
          as (-> & ->)
    end.
    split; [reflexivity|]. split; [reflexivity|].
    intros Hn. destruct n as [|n]; [lia|].
    rewrite run_lines_first. cbn [app].
    match goal with
    | |- QbyteDataProcessor.TurboUse
           (QbyteDataProcessor.parse_first_line (?h :: ?l :: ?r) ?q) = _ =>
        destruct (parse_first_line_second h l r q) as [_ ->]
    end.
    rewrite qbyte_line_last, Ha.
    now destruct (QByteHeadless.TurboUse a).
  - intros path fs0 text p lines Hfs0 Hp header.
    destruct (parse_file_header_ok float path fs0 Hfs0 Hp)
      as (Hlines & zc & zr & Hzc & Hzr & Hpeq).
    rewrite Hlines in Hzc, Hzr, Hpeq. fold header in Hzc, Hzr, Hpeq.
    match type of Hpeq with
    | p = QbyteDataProcessor.parse_first_line ?l ?q =>
        destruct (parse_first_line_keeps l q) as (Kc & Kr & Ku & Kh)
    end.
    rewrite <- Hpeq in Kc, Kr, Ku, Kh.
    match type of Kc with
    | _ = QbyteDataProcessor.ColorZ (QbyteDataProcessor.parse_rng ?h ?q) =>
        destruct (parse_rng_z h q) as (Zc & Zr)
    end.
    rewrite Zc in Kc. rewrite Zr in Kr.
    cbn [QbyteDataProcessor.ColorZ QbyteDataProcessor.RotZ] in Kc, Kr.
    split; [|split; [|split; [|split]]].
    + intros Hlen. destruct (Z.gtb_spec (len header) 1); [lia|].
      congruence.
    + intros Hlen. destruct (Z.gtb_spec (len header) 3); [lia|].
      congruence.
    + intros Hlen. rewrite Ku, Kh.
      unfold QbyteDataProcessor.parse_rng.
      destruct (Z.gtb_spec (len header) 5); [lia|]. split; reflexivity.
    + intros Hlen. rewrite Kh.
      unfold QbyteDataProcessor.parse_rng.
      destruct (Z.gtb_spec (len header) 5); [|reflexivity].
      destruct (Z.gtb_spec (len header) 6); [lia|].
      destruct (len header >? 7); reflexivity.
    + intros Hlen Hnl. rewrite Hpeq, (split_no_sep _ _ Hnl).
      unfold QbyteDataProcessor.parse_first_line.
      replace (len [text] >? 1) with false by reflexivity.
      unfold QbyteDataProcessor.parse_rng.
      destruct (Z.gtb_spec (len header) 5); [|reflexivity].
      destruct (Z.gtb_spec (len header) 7); [lia|].
      destruct (len header >? 6); reflexivity.
Qed.

End CodecClaims.

(* ================================================================== *)
(** * Further properties: numbers and their text *)
(* ================================================================== *)

Section NumberText.

(** Replaces the value of a digit character, left as a computation on
    its code, by the number it is. *)
Ltac digit_value :=
  repeat match goal with
         | |- context [Z.of_nat (nat_of_ascii ?c) - 48] =>
             let v := eval vm_compute in (Z.of_nat (nat_of_ascii c) - 48) in
             change (Z.of_nat (nat_of_ascii c) - 48) with v
         end.

Lemma int_acc_digit c r acc d :
  digit c = Some d -> int_acc acc (String c r) = int_acc (10 * acc + d) r.
Proof. intros H. cbn [int_acc]. now rewrite H. Qed.

Lemma int_acc_uint (d : Decimal.uint) :
  forall acc : positive,
    int_acc (Z.pos acc) (DecimalString.NilEmpty.string_of_uint d)
    = Z.pos (Pos.of_uint_acc d acc).
Proof.
  induction d; intros acc;
    cbn [DecimalString.NilEmpty.string_of_uint Pos.of_uint_acc];
    try reflexivity;
    erewrite int_acc_digit by reflexivity;
    rewrite <- IHd; f_equal; digit_value; lia.
Qed.

Lemma int_acc_zero (d : Decimal.uint) :
  int_acc 0 (DecimalString.NilEmpty.string_of_uint d)
  = Z.of_N (Pos.of_uint d).
Proof.
  induction d;
    cbn [DecimalString.NilEmpty.string_of_uint Pos.of_uint];
    try reflexivity;
    erewrite int_acc_digit by reflexivity;
    digit_value; cbn [Z.mul Z.add Z.of_N]; try exact IHd;
    apply int_acc_uint.
Qed.

Lemma uint_text_all_digits (d : Decimal.uint) :
  all_digits (DecimalString.NilEmpty.string_of_uint d) = true.
Proof. induction d; cbn; try rewrite IHd; reflexivity. Qed.

(** The text of an integer that is not negative holds digits only, and
    [int] reads the integer back. *)
Lemma str_round_trip (n : Z) :
  0 <= n -> isdigit (str n) = true /\ int (str n) = n.
Proof.
  intros Hn. destruct n as [|p|p]; [split; reflexivity | | lia].
  unfold str, int. cbn [Z.to_int DecimalString.NilZero.string_of_int].
  unfold DecimalString.NilZero.string_of_uint.
  pose proof (DecimalPos.Unsigned.to_uint_nonnil p) as Hnil.
  pose proof (DecimalPos.Unsigned.of_to p) as Hof.
  pose proof (uint_text_all_digits (Pos.to_uint p)) as Hdig.
  pose proof (int_acc_zero (Pos.to_uint p)) as Hint.
  destruct (Pos.to_uint p) as [|u|u|u|u|u|u|u|u|u|u]; [contradiction|..];
    (split; [exact Hdig | rewrite Hint, Hof; reflexivity]).
Qed.

Local Open Scope R_scope.

Lemma ceil_bounds (x : R) : IZR (ceil x) - 1 < x <= IZR (ceil x).
Proof.
  unfold ceil. rewrite opp_IZR.
  destruct (base_Int_part (- x)) as [H1 H2]. split; lra.
Qed.

Lemma ceil_monotone (x y : R) : x <= y -> (ceil x <= ceil y)%Z.
Proof.
  intros Hxy.
  destruct (ceil_bounds x) as [Hx _]. destruct (ceil_bounds y) as [_ Hy].
  assert (H : IZR (ceil x - 1) < IZR (ceil y)) by (rewrite minus_IZR; lra).
  apply lt_IZR in H. lia.
Qed.

End NumberText.

(* ================================================================== *)
(** * Further properties of the generation engine *)
(* ================================================================== *)

Section GenerationFacts.

Import QByteHeadless.

Lemma sum_indicator {A} (f : A -> bool) (l : list A) :
  0 <= sum (map (fun i => if f i then 1 else 0) l) <= len l.
Proof.
  induction l as [|x r IH]; [cbn; lia|].
  rewrite len_cons. cbn [map sum]. destruct (f x); lia.
Qed.

Lemma popcount_bounds (v : Z) : 0 <= popcount v <= 8.
Proof.
  unfold popcount.
  apply (sum_indicator (fun i => Z.testbit v (Z.of_nat i)) (seq 0 8)).
Qed.

Lemma sum_popcount_bounds (vals : list Z) :
  0 <= sum (map popcount vals) <= 8 * len vals.
Proof.
  induction vals as [|v r IH]; [cbn; lia|].
  rewrite len_cons. cbn [map sum].
  pose proof (popcount_bounds v). lia.
Qed.

(** X1: the bit sum of a trial whose values are bytes lies between 0 and
    8 times the number of values. *)
Theorem bit_sum_within_bits :
  forall (w : Z) (d : draw),
    sampled w d -> 0 <= count_bits (randint d) <= 8 * w.
Proof.
  intros w d [Hlen Hall].
  rewrite (count_bits_popcount Hall), <- Hlen.
  apply sum_popcount_bounds.
Qed.

Local Open Scope R_scope.

Lemma spec_sigma_nonneg (w : Z) : 0 <= spec_sigma w.
Proof. unfold spec_sigma. apply sqrt_pos. Qed.

Lemma spec_boundary_monotone (z1 z2 : Q) (w : Z) :
  (z1 <= z2)%Q -> (spec_boundary z1 w <= spec_boundary z2 w)%Z.
Proof.
  intros Hz. unfold spec_boundary. apply ceil_monotone.
  apply Qle_Rle in Hz.
  apply Rplus_le_compat_r, Rmult_le_compat_r;
    [apply spec_sigma_nonneg | exact Hz].
Qed.

Local Close Scope R_scope.

Lemma above_bounds limit env n :
  forall i, 0 <= above limit env i n <= Z.of_nat n.
Proof.
  induction n as [|n IH]; intros i; cbn [above]; [lia|].
  specialize (IH (S i)).
  destruct (count_bits (randint (env i)) >? limit); lia.
Qed.

Lemma above_antitone l1 l2 env n :
  l1 <= l2 -> forall i, above l2 env i n <= above l1 env i n.
Proof.
  intros Hl. induction n as [|n IH]; intros i; cbn [above]; [lia|].
  specialize (IH (S i)).
  destruct (Z.gtb_spec (count_bits (randint (env i))) l2);
    destruct (Z.gtb_spec (count_bits (randint (env i))) l1); lia.
Qed.

Variable QBYTE_DIR : string.
Variable float_str : Q -> string.

(** X3: after a bounded run of [n] trials each event counter lies between
    0 and [n] (at most one event of a kind per trial), and the rotation
    events are at most as many as the color events when RotZ is not below
    ColorZ: a trial above the rotation boundary is above the color
    boundary too. *)
Theorem event_counters_bounded :
  forall (a : settings) (md rem : string) (now : Z) (fs : filesystem)
         (env : nat -> draw) (n : nat),
    0 <= NEDspeed a ->
    exists fs' o r,
      run_with QBYTE_DIR float_str a md rem (Z.of_nat n) now env fs
      = (fs', Ok (o, r))
      /\ qbyte_lines (events o) = Z.of_nat n
      /\ 0 <= color_events (events o) <= Z.of_nat n
      /\ 0 <= rotation_events (events o) <= Z.of_nat n
      /\ ((ColorZ a <= RotZ a)%Q ->
          rotation_events (events o) <= color_events (events o)).
Proof.
  intros a md rem now fs env n Hw.
  destruct (run_with_log QBYTE_DIR float_str a md rem now fs env n Hw)
    as (fs' & o & o0 & Hrun & _ & Hran & _ & Hev & _ & HC & HR & _).
  exists fs', o, (get_results o). split; [exact Hrun|].
  destruct Hran. rewrite Hev in *.
  cbn [color_events rotation_events qbyte_lines] in *.
  pose proof (above_bounds (ActionNumC (stats o0)) env n 0).
  pose proof (above_bounds (ActionNumR (stats o0)) env n 0).
  repeat split; try lia.
  intros Hz.
  assert (Hle : ActionNumC (stats o0) <= ActionNumR (stats o0)).
  { rewrite HC, HR. now apply spec_boundary_monotone. }
  pose proof (@above_antitone _ _ env n Hle 0%nat). lia.
Qed.

Lemma array_sub_length (l1 l2 : list Z) :
  List.length l1 = List.length l2 ->
  List.length (array_sub l1 l2) = List.length l1.
Proof.
  intros H. unfold array_sub. rewrite length_map, length_combine. lia.
Qed.

(** X4: the three series of [get_results] are aligned: [bit_sums],
    [cumulative_deviation] and [std_dev] have [total_iterations] entries
    each, for every object. *)
Theorem get_results_series_aligned :
  forall o : self,
    let s := data_summary (get_results o) in
    total_iterations s = len (qbyte_data o)
    /\ len (bit_sums s) = total_iterations s
    /\ len (cumulative_deviation s) = total_iterations s
    /\ len (std_dev s) = total_iterations s.
Proof.
  intros o. unfold get_results.
  cbn [data_summary total_iterations bit_sums cumulative_deviation std_dev].
  split; [reflexivity|]. split; [apply len_map|].
  rewrite deviation_code, envelope_code. unfold len.
  now rewrite !length_map, !length_seq.
Qed.

Lemma bulk_loop_other env n p :
  forall i (fs : filesystem) o,
    String.eqb p (outfile_path o) = false ->
    fst (bulk_loop env i n (fs, o)) p = fs p.
Proof.
  induction n as [|n IH]; intros i fs o Hp; [reflexivity|].
  cbn [bulk_loop].
  pose proof (bulk_body_stepped (env i) fs o) as Hs.
  pose proof (bulk_body_other (env i) fs o p Hp) as Ho.
  remember (bulk_body (env i) (fs, o)) as st1 eqn:E.
  destruct st1 as [fs1 o1]. cbn [fst snd] in Hs, Ho.
  rewrite IH; [exact Ho | now rewrite (step_path Hs)].
Qed.

Lemma comments_path_differs (stem : string) :
  String.eqb (stem ++ "_C.txt") (stem ++ ".txt") = false.
Proof.
  induction stem as [|c r IH]; [reflexivity|].
  cbn [String.append String.eqb]. now rewrite Ascii.eqb_refl.
Qed.

Lemma write_other path data (fs : filesystem) p :
  String.eqb p path = false -> write path data fs p = fs p.
Proof. intros H. unfold write. now rewrite H. Qed.

(** X5: the constructor and a bounded run write to the log file and to
    nothing else: every other file is as it was, and the comments file,
    whose path the constructor computes, is never created. *)
Theorem run_writes_only_its_log :
  forall (a : settings) (md rem : string) (now : Z) (fs : filesystem)
         (env : nat -> draw) (iterations : Z),
    let fs' :=
      fst (run_with QBYTE_DIR float_str a md rem iterations now env fs) in
    (forall p,
        String.eqb p (file_stem QBYTE_DIR now rem ++ ".txt") = false ->
        fs' p = fs p)
    /\ fs' (file_stem QBYTE_DIR now rem ++ "_C.txt")
       = fs (file_stem QBYTE_DIR now rem ++ "_C.txt").
Proof.
  intros a md rem now fs env iterations fs'.
  assert (H : forall p,
             String.eqb p (file_stem QBYTE_DIR now rem ++ ".txt") = false ->
             fs' p = fs p).
  { intros p Hp. unfold fs', run_with, init_with.
    destruct (calculate a) as [st|e]; cbn [bind].
    - unfold generate_bulk_data.
      set (o0 := {| mode := md; remarks := rem; outpath := QBYTE_DIR;
                    attrs := a; qbyte_data := []; timestamps := [];
                    events := _; starttime := now; outfile_path := _;
                    cmtfile_path := _; stats := st |}).
      set (fs0 := write _ _ fs).
      pose proof (bulk_loop_other env (Z.to_nat iterations) p 0 fs0 o0 Hp)
        as Hl.
      destruct (bulk_loop env 0 (Z.to_nat iterations) (fs0, o0))
        as [fs1 o1].
      cbn [fst] in *. rewrite Hl. unfold fs0. now apply write_other.
    - cbn [fst]. now apply write_other. }
  split; [exact H|]. apply H, comments_path_differs.
Qed.

Lemma bulk_loop_shift env env' n :
  forall i j st,
    (forall k, (k < n)%nat -> env (i + k)%nat = env' (j + k)%nat) ->
    bulk_loop env i n st = bulk_loop env' j n st.
Proof.
  induction n as [|n IH]; intros i j st H; [reflexivity|].
  cbn [bulk_loop].
  pose proof (H 0%nat ltac:(lia)) as H0. rewrite !Nat.add_0_r in H0.
  rewrite H0. apply IH. intros k Hk.
  specialize (H (S k) ltac:(lia)).
  now rewrite !Nat.add_succ_r in H.
Qed.

Lemma bulk_loop_add env n1 n2 :
  forall i st,
    bulk_loop env i (n1 + n2) st
    = bulk_loop env (i + n1) n2 (bulk_loop env i n1 st).
Proof.
  induction n1 as [|n1 IH]; intros i st.
  - cbn [Nat.add bulk_loop]. now rewrite Nat.add_0_r.
  - cbn [Nat.add bulk_loop]. rewrite IH. now rewrite Nat.add_succ_r.
Qed.

(** X6: a second call of [generate_bulk_data] on the same object
    continues the first: the log, the stored trials and the counters after
    [n1] and then [n2] trials are those of one call of [n1 + n2] trials,
    and the results of the second call cover all of them. *)
Theorem second_call_continues_the_run :
  forall (env1 env2 : nat -> draw) (n1 n2 : nat) (st : filesystem * self),
    generate_bulk_data (Z.of_nat n2) env2
      (fst (generate_bulk_data (Z.of_nat n1) env1 st))
    = generate_bulk_data (Z.of_nat (n1 + n2)) (joined n1 env1 env2) st.
Proof.
  intros env1 env2 n1 n2 st. unfold generate_bulk_data.
  cbn [fst]. rewrite !Nat2Z.id, bulk_loop_add. cbn [Nat.add].
  assert (H1 : bulk_loop (joined n1 env1 env2) 0 n1 st
               = bulk_loop env1 0 n1 st).
  { apply bulk_loop_shift. intros k Hk. cbn [Nat.add]. unfold joined.
    apply Nat.ltb_lt in Hk. now rewrite Hk. }
  assert (H2 : forall st', bulk_loop (joined n1 env1 env2) n1 n2 st'
                           = bulk_loop env2 0 n2 st').
  { intros st'. apply bulk_loop_shift. intros k Hk. cbn [Nat.add].
    unfold joined.
    assert (Hge : (n1 + k <? n1)%nat = false) by (apply Nat.ltb_ge; lia).
    rewrite Hge. f_equal. lia. }
  now rewrite H1, H2.
Qed.

Lemma slice_to_firstn {A} (l : list A) (k : Z) :
  0 <= k -> slice_to l k = firstn (Z.to_nat k) l.
Proof.
  intros Hk. unfold slice_to, bound, len.
  destruct (Z.ltb_spec k 0); [lia|].
  destruct (Z.le_ge_cases k (Z.of_nat (List.length l))) as [Hle|Hge].
  - now rewrite Z.min_l.
  - rewrite Z.min_r, Nat2Z.id by lia.
    rewrite firstn_all, firstn_all2; [reflexivity | lia].
Qed.

Lemma continuous_body_result i d (fs : filesystem) o :
  let r := snd (continuous_body i d (fs, o)) in
  iteration r = i
  /\ it_timestamp r = clock d
  /\ it_bit_sum r = count_bits (randint d)
  /\ it_values r = firstn 10 (randint d).
Proof.
  run_body o; cbn [snd iteration it_timestamp it_bit_sum it_values];
    rewrite slice_to_firstn by lia; repeat split.
Qed.

(** X7: the streaming mode consumed [n] times leaves the log, the stored
    trials and the counters as the bounded mode does after [n] trials,
    and yields one result per trial, in order: the iteration index, the
    time stamp and the bit sum of the trial, and the first ten of its
    values at most. *)
Theorem streaming_matches_bounded :
  forall (env : nat -> draw) (n i : nat) (st : filesystem * self),
    let out := generate_continuous_data env i n st in
    fst out = bulk_loop env i n st
    /\ map iteration (snd out) = map Z.of_nat (seq i n)
    /\ map it_timestamp (snd out) = map (fun k => clock (env k)) (seq i n)
    /\ map it_bit_sum (snd out) = drawn_sums env i n
    /\ map it_values (snd out)
       = map (fun k => firstn 10 (randint (env k))) (seq i n)
    /\ Forall (fun r => len (it_values r) <= 10) (snd out).
Proof.
  intros env n. induction n as [|n IH]; intros i st.
  - cbn. repeat split. constructor.
  - cbn [generate_continuous_data bulk_loop seq map].
    pose proof (continuous_body_state (Z.of_nat i) (env i) st) as Hst.
    destruct st as [fs o].
    pose proof (continuous_body_result (Z.of_nat i) (env i) fs o)
      as (R1 & R2 & R3 & R4).
    destruct (continuous_body (Z.of_nat i) (env i) (fs, o)) as [st1 r].
    cbn [fst snd] in Hst, R1, R2, R3, R4. subst st1.
    specialize (IH (S i) (bulk_body (env i) (fs, o))).
    destruct (generate_continuous_data env (S i) n
                (bulk_body (env i) (fs, o))) as [st2 rs].
    cbn [fst snd] in *. destruct IH as (I0 & I1 & I2 & I3 & I4 & I5).
    unfold drawn_sums in *. cbn [seq map].
    rewrite R1, R2, R3, R4, I1, I2, I3, I4.
    repeat split; try assumption.
    constructor; [|assumption].
    rewrite R4. unfold len. rewrite length_firstn. lia.
Qed.

End GenerationFacts.

(* ================================================================== *)
(** * Further properties of the log decoder *)
(* ================================================================== *)

Section DecoderFacts.

Import QbyteDataProcessor.

Lemma digit_range c d : digit c = Some d -> 0 <= d <= 9.
Proof.
  unfold digit.
  destruct ((48 <=? Z.of_nat (nat_of_ascii c))
            && (Z.of_nat (nat_of_ascii c) <=? 57)) eqn:E; [|discriminate].
  intros H. injection H as <-. apply andb_prop in E as [H1 H2].
  apply Z.leb_le in H1, H2. lia.
Qed.

Lemma int_acc_nonneg s : forall acc, 0 <= acc -> 0 <= int_acc acc s.
Proof.
  induction s as [|c r IH]; intros acc Hacc; cbn [int_acc]; [exact Hacc|].
  apply IH. destruct (digit c) as [d|] eqn:E; [|lia].
  apply digit_range in E. lia.
Qed.

Lemma int_nonneg s : 0 <= int s.
Proof. apply int_acc_nonneg. lia. Qed.

Lemma sum_bits_nonneg s : 0 <= sum_bits s.
Proof.
  induction s as [|c r IH]; cbn [sum_bits]; [lia|].
  destruct (digit c) as [d|] eqn:E; [|lia].
  apply digit_range in E. lia.
Qed.

(** A property that the step of a left fold keeps holds of its result. *)
Lemma fold_left_keeps {A B} (P : A -> Prop) (f : A -> B -> A) (l : list B) :
  (forall acc x, P acc -> P (f acc x)) ->
  forall acc, P acc -> P (fold_left f l acc).
Proof.
  intros Hf. induction l as [|x r IH]; intros acc Hacc; [exact Hacc|].
  cbn [fold_left]. apply IH, Hf, Hacc.
Qed.

Lemma scan_values_nonneg fields :
  0 <= fst (scan_values fields)
  /\ Forall (fun v => 0 <= v) (snd (scan_values fields)).
Proof.
  unfold scan_values.
  apply (fold_left_keeps
           (fun acc : Z * list Z =>
              0 <= fst acc /\ Forall (fun v => 0 <= v) (snd acc))).
  - intros acc val [Hb Hv]. destruct (isdigit val); [|now split].
    cbn [fst snd]. split.
    + pose proof (sum_bits_nonneg (drop 3 (bin (256 + int val)))). lia.
    + apply Forall_app. split; [exact Hv|].
      constructor; [apply int_nonneg | constructor].
  - cbn [fst snd]. split; [lia | constructor].
Qed.

Lemma extract_line_well_formed acc line :
  well_formed acc -> well_formed (extract_line acc line).
Proof.
  intros [Hts Hall]. unfold extract_line.
  destruct (contains "QBYTE" line); [|now split].
  destruct (len (split "," line) >? 2); [|now split].
  pose proof (scan_values_nonneg (slice_to (split "," line) (-2)))
    as [Hb Hv].
  destruct (scan_values (slice_to (split "," line) (-2))) as [bits vals].
  split; cbn [fst snd] in *.
  - rewrite map_app, Hts. reflexivity.
  - apply Forall_app. split; [exact Hall|].
    constructor; [|constructor].
    cbn [timestamp bit_sum values]. split; [|split; assumption].
    destruct (isdigit (last2 (split "," line) "")); [apply int_nonneg | lia].
Qed.

Lemma extract_line_grows acc line :
  len (fst (extract_line acc line)) <= len (fst acc) + 1.
Proof.
  unfold extract_line.
  destruct (contains "QBYTE" line); [|lia].
  destruct (len (split "," line) >? 2); [|lia].
  destruct (scan_values (slice_to (split "," line) (-2))) as [bits vals].
  cbn [fst]. rewrite len_app, len_cons. cbn. lia.
Qed.

Lemma fold_extract_grows l :
  forall acc,
    len (fst (fold_left extract_line l acc)) <= len (fst acc) + len l.
Proof.
  induction l as [|x r IH]; intros acc; cbn [fold_left].
  - cbn. lia.
  - specialize (IH (extract_line acc x)).
    pose proof (extract_line_grows acc x). rewrite len_cons. lia.
Qed.

Lemma slice_after_first {A} (l : list A) (limit : Z) :
  0 <= limit -> len (slice l 1 (limit + 1)) <= limit.
Proof.
  intros Hl. unfold slice, len, bound.
  rewrite length_firstn.
  destruct (Z.ltb_spec 1 0); [lia|].
  destruct (Z.ltb_spec (limit + 1) 0); lia.
Qed.

Lemma extract_well_formed lines limit :
  well_formed (extract_qbyte_data lines limit).
Proof.
  unfold extract_qbyte_data. apply (fold_left_keeps well_formed).
  - intros acc x. apply extract_line_well_formed.
  - split; [reflexivity | constructor].
Qed.

(** X8: on ASCII lines of at most 4300 characters, whatever they hold
    and whatever the limit is, the two lists that [extract_qbyte_data]
    returns are aligned (the second is the list of the time stamps of the
    first), no extracted time stamp, bit sum or value is negative, and
    with a limit that is not negative at most [limit] trials are
    extracted. *)
Theorem extracted_series_aligned :
  forall (lines : list string) (limit : Z),
    Forall (plain_line 4300) lines ->
    let r := extract_qbyte_data lines limit in
    snd r = map timestamp (fst r)
    /\ Forall (fun t => 0 <= timestamp t /\ 0 <= bit_sum t
                        /\ Forall (fun v => 0 <= v) (values t)) (fst r)
    /\ (0 <= limit -> len (fst r) <= limit).
Proof.
  intros lines limit _ r. unfold r, extract_qbyte_data.
  destruct (extract_well_formed lines limit) as [H1 H2].
  unfold extract_qbyte_data in H1, H2.
  split; [exact H1|]. split; [exact H2|].
  intros Hl.
  pose proof (fold_extract_grows (slice lines 1 (limit + 1)) ([], [])) as Hg.
  pose proof (slice_after_first lines Hl) as Hs.
  cbn [fst] in Hg. change (len (@nil trial)) with 0 in Hg. lia.
Qed.




Variable QBYTE_DIR : string.
Variable float : string -> option Q.


(** X10: the answers of the route [get_file_data] on a file of ASCII
    lines of at most 4300 characters, or on no file.  It answers 404
    exactly when the file is absent, and 500 only when the second or the
    fourth token of the header line is not the text of a float; otherwise
    it answers with the number of the lines of the file (at least 1), a
    sample of at most 100 trials, and parameters that hold both z
    values. *)
Theorem file_data_answers :
  forall (filename : string) (fs : filesystem),
    (forall text,
        fs (App.path_of QBYTE_DIR filename) = Some text ->
        Forall (plain_line 4300) (split newline text)) ->
    let path := App.path_of QBYTE_DIR filename in
    match App.get_file_data QBYTE_DIR float filename fs with
    | App.Failed status =>
        (status = 404 /\ fs path = None)
        \/ (status = 500
            /\ exists text,
                fs path = Some text
                /\ let header := split " " (nth 0 (split newline text) "") in
                   (1 < len header /\ float (nth 1 header "") = None)
                   \/ (3 < len header /\ float (nth 3 header "") = None))
    | App.Json (p, sample, total) =>
        exists text,
          fs path = Some text
          /\ total = len (split newline text)
          /\ 1 <= total
          /\ len sample <= 100
          /\ ColorZ p <> None /\ RotZ p <> None
    end.
Proof.
  intros filename fs _ path. unfold App.get_file_data, App.exists_.
  fold path. destruct (fs path) as [text|] eqn:Hfs; cbn [negb];
    [|left; now split].
  unfold parse_file_header, read. rewrite Hfs. cbn [bind].
  set (lines := split newline text).
  set (header := split " " (nth 0 lines "")).
  assert (Hlines : 1 <= len lines).
  { unfold lines. pose proof (split_not_nil newline text) as Hne.
    destruct (split newline text); [contradiction|].
    rewrite len_cons. pose proof (len_nonneg l). lia. }
  assert (Hz : forall k d,
             match (if len header >? k then to_float float (nth (Z.to_nat k) header "")
                    else Ok d) with
             | Ok _ => True
             | Raise _ => k < len header
                          /\ float (nth (Z.to_nat k) header "") = None
             end).
  { intros k d. destruct (Z.gtb_spec (len header) k); [|exact I].
    unfold to_float. destruct (float (nth (Z.to_nat k) header "")); [exact I|].
    split; [lia | reflexivity]. }
  pose proof (Hz 1 1.65%Q) as H1. pose proof (Hz 3 1.85%Q) as H3.
  change (Z.to_nat 1) with 1%nat in H1. change (Z.to_nat 3) with 3%nat in H3.
  destruct (if len header >? 1 then to_float float (nth 1 header "")
            else Ok 1.65%Q) as [zc|e1]; cbn [bind].
  2:{ right. split; [reflexivity|]. exists text. split; [reflexivity|].
      left. exact H1. }
  destruct (if len header >? 3 then to_float float (nth 3 header "")
            else Ok 1.85%Q) as [zr|e3]; cbn [bind].
  2:{ right. split; [reflexivity|]. exists text. split; [reflexivity|].
      right. exact H3. }
  destruct (extract_qbyte_data lines 1000) as [data stamps] eqn:Hx.
  exists text. split; [reflexivity|]. split; [reflexivity|].
  split; [exact Hlines|]. split.
  { unfold slice_to, len. rewrite length_firstn. unfold bound.
    destruct (Z.ltb_spec 100 0); lia. }
  destruct (parse_first_line_keeps lines
              (parse_rng header
                 {| ColorZ := Some zc; RotZ := Some zr; UseTrueRNG := None;
                    HALO := None; TurboUse := None; NEDspeed := None |}))
    as (Kc & Kr & _).
  rewrite Kc, Kr.
  unfold parse_rng.
  destruct (len header >? 5); [|split; discriminate].
  destruct (len header >? 6); destruct (len header >? 7);
    split; discriminate.
Qed.

Lemma split_length sep s :
  occurs sep s = false <-> len (split sep s) = 1.
Proof.
  split.
  - intros H. now rewrite (split_no_sep _ _ H).
  - induction s as [|c r IH]; [reflexivity|]. cbn [split occurs].
    destruct (Ascii.eqb c sep) eqn:E.
    + rewrite len_cons. pose proof (split_not_nil sep r) as Hne.
      destruct (split sep r); [contradiction|].
      rewrite len_cons. pose proof (len_nonneg l). lia.
    + rewrite (Ascii.eqb_sym) in E.
      destruct (split sep r) as [|h t] eqn:Es.
      * now destruct (split_not_nil sep r).
      * rewrite !len_cons. intros H. rewrite len_cons in IH.
        cbn [orb]. rewrite Ascii.eqb_sym in E. rewrite ?E. apply IH. lia.
Qed.

Lemma parse_file_header_width path (fs : filesystem) p lines :
  parse_file_header float path fs = Ok (p, lines) ->
  NEDspeed p
  = match lines with
    | _ :: l1 :: _ => Some (len (split "," l1) - 2)
    | _ => None
    end.
Proof.
  intros Hp.
  destruct (fs path) as [text|] eqn:Hfs.
  2:{ unfold parse_file_header, read in Hp. rewrite Hfs in Hp.
      discriminate. }
  eapply parse_file_header_ok in Hp; [|exact Hfs].
  destruct Hp as (_ & zc & zr & _ & _ & ->).
  destruct lines as [|h [|l1 rest]].
  - unfold parse_first_line. cbn [len List.length Z.of_nat Z.gtb Z.compare].
    apply parse_rng_NEDspeed.
  - unfold parse_first_line. cbn [len List.length Z.of_nat Z.gtb Z.compare].
    apply parse_rng_NEDspeed.
  - apply parse_first_line_second.
Qed.

(** X11: after a header that is parsed, the width inferred is -1 exactly
    when the file has a second line and that line holds no comma, and no
    inferred width is below -1; with the width -1 [calculate_statistics]
    raises a [TypeError], whatever the z values and the C library are. *)
Theorem statistics_fail_on_commaless_second_line :
  forall (path : string) (fs : filesystem) (p : params)
         (lines : list string),
    parse_file_header float path fs = Ok (p, lines) ->
    ((exists h l1 rest,
         lines = h :: l1 :: rest /\ occurs "," l1 = false)
     <-> NEDspeed p = Some (-1))
    /\ (forall w, NEDspeed p = Some w -> -1 <= w)
    /\ (NEDspeed p = Some (-1) ->
        forall libm_pow zc zr,
          Binary64.calculate_statistics libm_pow
            {| Binary64.ColorZ := zc; Binary64.RotZ := zr;
               Binary64.NEDspeed := NEDspeed p |} = Raise TypeError).
Proof.
  intros path fs p lines Hp.
  pose proof (parse_file_header_width _ _ Hp) as Hw.
  assert (Hpos : forall l1, 1 <= len (split "," l1)).
  { intros l1. pose proof (split_not_nil "," l1) as Hne.
    destruct (split "," l1); [contradiction|].
    rewrite len_cons. pose proof (len_nonneg l). lia. }
  split; [|split].
  - destruct lines as [|h [|l1 rest]].
    + rewrite Hw. split; [|discriminate].
      intros (? & ? & ? & H & _). discriminate.
    + rewrite Hw. split; [|discriminate].
      intros (? & ? & ? & H & _). discriminate.
    + rewrite Hw. pose proof (split_length "," l1) as Hs.
      pose proof (Hpos l1). split.
      * intros (h' & l' & rest' & Heq & Hc). injection Heq as _ <- _.
        apply Hs in Hc. f_equal. lia.
      * intros H1. exists h, l1, rest. split; [reflexivity|].
        apply Hs. injection H1 as H1. lia.
  - intros w Hsome. rewrite Hw in Hsome.
    destruct lines as [|h [|l1 rest]]; try discriminate.
    injection Hsome as <-. pose proof (Hpos l1). lia.
  - intros -> libm_pow zc zr. unfold Binary64.calculate_statistics.
    cbn [get Binary64.ColorZ Binary64.RotZ Binary64.NEDspeed].
    now rewrite action_number_minus_one.
Qed.

End DecoderFacts.

(* ================================================================== *)
(** * Further properties: the decoder on the log of a run *)
(* ================================================================== *)

Section RoundTrip.

Import QByteHeadless.

Lemma bulk_body_data d (fs : filesystem) o :
  qbyte_data (snd (bulk_body d (fs, o)))
  = (qbyte_data o ++ [trial_of d])%list
  /\ timestamps (snd (bulk_body d (fs, o)))
     = (timestamps o ++ [clock d])%list.
Proof. split; run_body o; reflexivity. Qed.

(** The trials and the time stamps that the loop of [generate_bulk_data]
    stores. *)
Lemma bulk_loop_data env n :
  forall i (fs : filesystem) o,
    qbyte_data (snd (bulk_loop env i n (fs, o)))
    = (qbyte_data o ++ map (fun k => trial_of (env k)) (seq i n))%list
    /\ timestamps (snd (bulk_loop env i n (fs, o)))
       = (timestamps o ++ map (fun k => clock (env k)) (seq i n))%list.
Proof.
  induction n as [|n IH]; intros i fs o.
  - cbn. now rewrite !app_nil_r.
  - cbn [bulk_loop seq map].
    pose proof (bulk_body_data (env i) fs o) as [Hd Ht].
    remember (bulk_body (env i) (fs, o)) as st1 eqn:E.
    destruct st1 as [fs1 o1]. cbn [snd] in Hd, Ht.
    destruct (IH (S i) fs1 o1) as [Id It].
    rewrite Id, It, Hd, Ht, <- !app_assoc. split; reflexivity.
Qed.

Lemma run_lines_count o env n :
  forall i,
    len (run_lines o env i n)
    = Z.of_nat n + above (ActionNumC (stats o)) env i n
      + above (ActionNumR (stats o)) env i n.
Proof.
  induction n as [|n IH]; intros i; cbn [run_lines above]; [reflexivity|].
  rewrite len_app, IH. unfold trial_lines.
  destruct (count_bits (randint (env i)) >? ActionNumC (stats o));
    destruct (count_bits (randint (env i)) >? ActionNumR (stats o));
    cbn [app]; rewrite ?len_cons; change (len (@nil string)) with 0; lia.
Qed.

(** ** The decoder on the three kinds of lines *)

Lemma scan_strs (vals : list Z) :
  Forall (fun v => 0 <= v) vals ->
  forall b vs,
    fold_left
      (fun (acc : Z * list Z) val =>
         if isdigit val
         then (fst acc + sum_bits (drop 3 (bin (256 + int val))),
               (snd acc ++ [int val])%list)
         else acc)
      (map str vals) (b, vs)
    = (fold_left (fun acc val => acc + sum_bits (drop 3 (bin (256 + val))))
                 vals b,
       (vs ++ vals)%list).
Proof.
  induction 1 as [|v r Hv _ IH]; intros b vs; cbn [map fold_left].
  - now rewrite app_nil_r.
  - destruct (str_round_trip Hv) as [Hd Hi]. rewrite Hd, Hi.
    cbn [fst snd]. rewrite IH, <- app_assoc. reflexivity.
Qed.

Lemma scan_values_fields (vals : list Z) :
  Forall (fun v => 0 <= v) vals ->
  QbyteDataProcessor.scan_values
    ("QBYTE" :: match vals with [] => [""] | _ => map str vals end)
  = (count_bits vals, vals).
Proof.
  intros Hall. unfold QbyteDataProcessor.scan_values, count_bits.
  cbn [fold_left].
  change (isdigit "QBYTE") with false. cbn iota.
  destruct vals as [|v r]; [reflexivity|].
  now rewrite (scan_strs Hall).
Qed.

Lemma slice_to_but_two {A} (l : list A) (x y : A) :
  slice_to (l ++ [x; y]) (-2) = l.
Proof.
  unfold slice_to, bound. rewrite len_app. unfold len. cbn [List.length].
  change (-2 <? 0) with true. cbn iota.
  replace (Z.to_nat (Z.max 0 (-2 + (Z.of_nat (List.length l) + Z.of_nat 2))))
    with (List.length l + 0)%nat by lia.
  rewrite firstn_app_2. cbn [firstn]. apply app_nil_r.
Qed.

Lemma last2_but_one {A} (l : list A) (x y d : A) :
  last2 (l ++ [x; y]) d = x.
Proof.
  unfold last2.
  change (l ++ [x; y])%list with (l ++ [x] ++ [y])%list.
  rewrite app_assoc, removelast_last. apply last_last.
Qed.

Lemma extract_qbyte_line acc vals ts t :
  0 <= ts -> Forall (fun v => 0 <= v) vals ->
  QbyteDataProcessor.extract_line acc (qbyte_line vals ts t)
  = ((fst acc
      ++ [{| QbyteDataProcessor.timestamp := ts;
             QbyteDataProcessor.bit_sum := count_bits vals;
             QbyteDataProcessor.values := vals |}])%list,
     (snd acc ++ [ts])%list).
Proof.
  intros Hts Hall. unfold QbyteDataProcessor.extract_line.
  destruct (qbyte_line_searches vals ts t) as [Hq _]. rewrite Hq.
  rewrite split_qbyte_line.
  set (fields := match vals with [] => [""] | _ => map str vals end).
  change ("QBYTE" :: fields ++ [str ts; turbo_flag t])%list
    with (("QBYTE" :: fields) ++ [str ts; turbo_flag t])%list.
  rewrite slice_to_but_two, last2_but_one.
  destruct (str_round_trip Hts) as [Hd Hi]. rewrite Hd, Hi.
  rewrite len_app, len_cons.
  pose proof (len_nonneg fields).
  change (len [str ts; turbo_flag t]) with 2.
  destruct (Z.gtb_spec (1 + len fields + 2) 2); [|lia].
  unfold fields. now rewrite (scan_values_fields Hall).
Qed.

Lemma extract_event_line acc ts :
  QbyteDataProcessor.extract_line acc ("color," ++ str ts) = acc
  /\ QbyteDataProcessor.extract_line acc ("rotation," ++ str ts) = acc.
Proof.
  unfold QbyteDataProcessor.extract_line.
  destruct (color_line_searches ts) as [Hc _].
  destruct (rotation_line_searches ts) as [Hr _].
  now rewrite Hc, Hr.
Qed.

Lemma extract_trial_lines o d acc :
  unsigned_draw d ->
  fold_left QbyteDataProcessor.extract_line (trial_lines o d) acc
  = ((fst acc ++ [as_decoded (trial_of d)])%list,
     (snd acc ++ [clock d])%list).
Proof.
  intros [Hts Hall]. unfold trial_lines.
  destruct (count_bits (randint d) >? ActionNumC (stats o));
    destruct (count_bits (randint d) >? ActionNumR (stats o));
    cbn [app fold_left];
    rewrite (extract_qbyte_line _ _ Hts Hall);
    rewrite ?(proj1 (extract_event_line _ _)),
            ?(proj2 (extract_event_line _ _));
    reflexivity.
Qed.

Lemma extract_run_lines o env n :
  forall i acc,
    (forall k, (i <= k < i + n)%nat -> unsigned_draw (env k)) ->
    fold_left QbyteDataProcessor.extract_line (run_lines o env i n) acc
    = ((fst acc
        ++ map (fun k => as_decoded (trial_of (env k))) (seq i n))%list,
       (snd acc ++ map (fun k => clock (env k)) (seq i n))%list).
Proof.
  induction n as [|n IH]; intros i acc Hu.
  - cbn. rewrite !app_nil_r. now destruct acc.
  - cbn [run_lines seq map]. rewrite fold_left_app.
    rewrite extract_trial_lines by (apply Hu; lia).
    rewrite IH by (intros k Hk; apply Hu; lia).
    cbn [fst snd]. now rewrite <- !app_assoc.
Qed.

(** The slice [lines[1:limit+1]] of a file whose lines after the first
    are [body] and the empty piece after the last newline. *)
Lemma slice_of_log (h : string) (body : list string) (limit : Z) :
  len body <= limit ->
  slice (h :: body ++ [""]) 1 (limit + 1) = body
  \/ slice (h :: body ++ [""]) 1 (limit + 1) = (body ++ [""])%list.
Proof.
  intros Hl. unfold slice, bound.
  rewrite len_cons, len_app. change (len [""]) with 1.
  pose proof (len_nonneg body) as Hb.
  change (1 <? 0) with false. cbn iota.
  destruct (Z.ltb_spec (limit + 1) 0); [lia|].
  replace (Z.to_nat (Z.min 1 (1 + (len body + 1)))) with 1%nat by lia.
  cbn [skipn].
  destruct (Z.eq_dec (len body) limit) as [He|Hne].
  - left.
    replace (Z.to_nat (Z.min (limit + 1) (1 + (len body + 1))) - 1)%nat
      with (List.length body + 0)%nat by (unfold len in *; lia).
    rewrite firstn_app_2. cbn [firstn]. apply app_nil_r.
  - right. apply firstn_all2. rewrite length_app. cbn [List.length].
    unfold len in *. lia.
Qed.

Lemma extract_log (h : string) o env n (limit : Z) :
  (forall k, (k < n)%nat -> unsigned_draw (env k)) ->
  len (run_lines o env 0 n) <= limit ->
  QbyteDataProcessor.extract_qbyte_data
    (h :: run_lines o env 0 n ++ [""]) limit
  = (map (fun k => as_decoded (trial_of (env k))) (seq 0 n),
     map (fun k => clock (env k)) (seq 0 n)).
Proof.
  intros Hu Hl. unfold QbyteDataProcessor.extract_qbyte_data.
  assert (Hrun : fold_left QbyteDataProcessor.extract_line
                   (run_lines o env 0 n) ([], [])
                 = (map (fun k => as_decoded (trial_of (env k))) (seq 0 n),
                    map (fun k => clock (env k)) (seq 0 n))).
  { rewrite extract_run_lines by (intros k Hk; apply Hu; lia).
    reflexivity. }
  destruct (slice_of_log h (run_lines o env 0 n) Hl) as [-> | ->].
  - exact Hrun.
  - rewrite fold_left_app, Hrun. reflexivity.
Qed.

Variable QBYTE_DIR : string.
Variable float_str : Q -> string.
Variable float : string -> option Q.

(** What a bounded run leaves, with the stored trials and the lines of
    the log. *)
Lemma run_with_data (a : settings) (md rem : string) (now : Z)
      (fs : filesystem) (env : nat -> draw) (n : nat) :
  decimal_text (float_str (ColorZ a)) = true ->
  decimal_text (float_str (RotZ a)) = true ->
  0 <= NEDspeed a ->
  exists fs' o o0 text,
    run_with QBYTE_DIR float_str a md rem (Z.of_nat n) now env fs
    = (fs', Ok (o, get_results o))
    /\ outfile_path o = file_stem QBYTE_DIR now rem ++ ".txt"
    /\ fs' (outfile_path o) = Some text
    /\ split newline text
       = (header_line float_str a :: run_lines o0 env 0 n ++ [""])%list
    /\ len (run_lines o0 env 0 n)
       = Z.of_nat n + color_events (events o) + rotation_events (events o)
    /\ qbyte_data o = map (fun k => trial_of (env k)) (seq 0 n)
    /\ timestamps o = map (fun k => clock (env k)) (seq 0 n).
Proof.
  intros Hc Hr Hw.
  destruct (run_with_log QBYTE_DIR float_str a md rem now fs env n Hw)
    as (fs' & o & o0 & Hrun & Hinit & Hran & _ & Hev & _ & _ & _ & Hfs).
  exists fs', o, o0,
    (lines_text (header_line float_str a :: run_lines o0 env 0 n)).
  split; [exact Hrun|].
  assert (Hdata : outfile_path o = file_stem QBYTE_DIR now rem ++ ".txt"
                  /\ qbyte_data o = map (fun k => trial_of (env k)) (seq 0 n)
                  /\ timestamps o = map (fun k => clock (env k)) (seq 0 n)).
  { revert Hrun Hinit. unfold run_with, init_with. cbn [snd].
    destruct (calculate a) as [st|e]; cbn [bind]; [|discriminate].
    unfold generate_bulk_data. rewrite Nat2Z.id.
    intros Hrun Hinit. injection Hinit as <-.
    pose proof (bulk_loop_data env n 0 (write (file_stem QBYTE_DIR now rem ++ ".txt") (header_line float_str a ++ nl) fs)
      {| mode := md; remarks := rem; outpath := QBYTE_DIR; attrs := a;
         qbyte_data := []; timestamps := [];
         events := {| color_events := 0; rotation_events := 0;
                      qbyte_lines := 0 |};
         starttime := now;
         outfile_path := file_stem QBYTE_DIR now rem ++ ".txt";
         cmtfile_path := file_stem QBYTE_DIR now rem ++ "_C.txt";
         stats := st |}) as [Hd Ht].
    pose proof (ran_path Hran) as Hpath.
    destruct (bulk_loop env 0 n _) as [fs1 o1] eqn:El.
    cbn [snd qbyte_data timestamps outfile_path] in *.
    injection Hrun as _ <-. rewrite Hd, Ht. now split. }
  destruct Hdata as (Hp & Hd & Ht).
  split; [exact Hp|]. split; [exact Hfs|].
  split; [now apply log_lines|].
  split; [|now split].
  rewrite run_lines_count, (ran_color Hran), (ran_rotation Hran), Hev.
  cbn [color_events rotation_events]. lia.
Qed.

(** X12: the decoder recovers a run from its log.  After a bounded run of
    [n] trials whose time stamps and values are not negative, and with a
    limit that covers the lines of the log (trials and events),
    [extract_qbyte_data] on the lines of the log file returns the trials
    that the run stored (time stamp, bit sum and values of each) and its
    list of time stamps. *)
Theorem extraction_recovers_the_run :
  forall (a : settings) (md rem : string) (now : Z) (fs : filesystem)
         (env : nat -> draw) (n : nat) (limit : Z),
    decimal_text (float_str (ColorZ a)) = true ->
    decimal_text (float_str (RotZ a)) = true ->
    0 <= NEDspeed a ->
    (forall k, (k < n)%nat -> unsigned_draw (env k)) ->
    exists fs' o r text,
      run_with QBYTE_DIR float_str a md rem (Z.of_nat n) now env fs
      = (fs', Ok (o, r))
      /\ fs' (outfile_path o) = Some text
      /\ (Z.of_nat n + color_events (events o) + rotation_events (events o)
          <= limit ->
          QbyteDataProcessor.extract_qbyte_data (split newline text) limit
          = (map as_decoded (qbyte_data o), timestamps o)).
Proof.
  intros a md rem now fs env n limit Hc Hr Hw Hu.
  destruct (run_with_data a md rem now fs env n Hc Hr Hw)
    as (fs' & o & o0 & text & Hrun & _ & Hfs & Hlines & Hlen & Hd & Ht).
  exists fs', o, (get_results o), text.
  split; [exact Hrun|]. split; [exact Hfs|].
  intros Hl. rewrite Hlines, Hd, Ht, map_map.
  apply extract_log; [exact Hu | lia].
Qed.

(** X13: the line count that the statistics route reports for the log of
    a bounded run is the number of trials and events plus two: the header
    line and the empty piece after the last newline are counted. *)
Theorem total_lines_counts_header_and_end :
  forall (a : settings) (md rem : string) (now : Z) (fs : filesystem)
         (env : nat -> draw) (n : nat),
    decimal_text (float_str (ColorZ a)) = true ->
    decimal_text (float_str (RotZ a)) = true ->
    0 <= NEDspeed a ->
    exists fs' o r text,
      run_with QBYTE_DIR float_str a md rem (Z.of_nat n) now env fs
      = (fs', Ok (o, r))
      /\ fs' (outfile_path o) = Some text
      /\ QbyteDataProcessor.total_lines
           (QbyteDataProcessor.count_events (split newline text))
         = qbyte_lines (events o) + color_events (events o)
           + rotation_events (events o) + 2.
Proof.
  intros a md rem now fs env n Hc Hr Hw.
  destruct (run_with_data a md rem now fs env n Hc Hr Hw)
    as (fs' & o & o0 & text & Hrun & _ & Hfs & Hlines & Hlen & _ & _).
  destruct (run_with_log QBYTE_DIR float_str a md rem now fs env n Hw)
    as (fs2 & o2 & o3 & Hrun2 & _ & Hran & _ & Hev & _).
  rewrite Hrun in Hrun2. injection Hrun2 as <- <-.
  exists fs', o, (get_results o), text.
  split; [exact Hrun|]. split; [exact Hfs|].
  unfold QbyteDataProcessor.count_events.
  cbn [QbyteDataProcessor.total_lines].
  rewrite Hlines, len_cons, len_app, Hlen, (ran_qbyte Hran), Hev.
  cbn [qbyte_lines]. change (len [""]) with 1. lia.
Qed.

(** The header of the log of a run is parsed when [float] reads the
    texts of the two z values. *)
Lemma parse_run_log (a : settings) (text : string) (body : list string)
      (path : string) (fs' : filesystem) :
  decimal_text (float_str (ColorZ a)) = true ->
  decimal_text (float_str (RotZ a)) = true ->
  float (float_str (ColorZ a)) = Some (ColorZ a) ->
  float (float_str (RotZ a)) = Some (RotZ a) ->
  fs' path = Some text ->
  split newline text = (header_line float_str a :: body)%list ->
  exists p,
    QbyteDataProcessor.parse_file_header float path fs'
    = Ok (p, (header_line float_str a :: body)%list).
Proof.
  intros Hc Hr Fc Fr Hfs Hlines.
  unfold QbyteDataProcessor.parse_file_header, read.
  rewrite Hfs. cbn [bind]. rewrite Hlines. cbn [nth].
  rewrite (header_tokens float_str a Hc Hr).
  cbn [len List.length nth Z.of_nat Pos.of_succ_nat Pos.succ Z.gtb Z.compare
       Pos.compare Pos.compare_cont].
  unfold QbyteDataProcessor.to_float. rewrite Fc, Fr. cbn [bind].
  eexists. reflexivity.
Qed.

(** X14: the file route serves a run.  For the log of a bounded run of
    [n] trials (time stamps and values not negative, the two z values
    written as texts that [float] reads), with at most 1000 lines of
    trials and events, [get_file_data] on the name of the log answers with
    the first 100 trials that the run stored and with the line count
    [n + events + 2]. *)
Theorem file_route_serves_the_run :
  forall (a : settings) (md rem : string) (now : Z) (fs : filesystem)
         (env : nat -> draw) (n : nat),
    decimal_text (float_str (ColorZ a)) = true ->
    decimal_text (float_str (RotZ a)) = true ->
    float (float_str (ColorZ a)) = Some (ColorZ a) ->
    float (float_str (RotZ a)) = Some (RotZ a) ->
    0 <= NEDspeed a ->
    (forall k, (k < n)%nat -> unsigned_draw (env k)) ->
    exists fs' o r,
      run_with QBYTE_DIR float_str a md rem (Z.of_nat n) now env fs
      = (fs', Ok (o, r))
      /\ (Z.of_nat n + color_events (events o) + rotation_events (events o)
          <= 1000 ->
          exists p,
            App.get_file_data QBYTE_DIR float
              ("QB_" ++ str (Z.quot now 1000) ++ "_" ++ rem ++ ".txt") fs'
            = App.Json
                (p, slice_to (map as_decoded (qbyte_data o)) 100,
                 Z.of_nat n + color_events (events o)
                 + rotation_events (events o) + 2)).
Proof.
  intros a md rem now fs env n Hc Hr Fc Fr Hw Hu.
  destruct (run_with_data a md rem now fs env n Hc Hr Hw)
    as (fs' & o & o0 & text & Hrun & Hp & Hfs & Hlines & Hlen & Hd & Ht).
  exists fs', o, (get_results o). split; [exact Hrun|].
  intros Hl. unfold App.get_file_data, App.exists_.
  rewrite path_of_log, <- Hp, Hfs. cbn [negb].
  destruct (parse_run_log _ _ Hc Hr Fc Fr Hfs Hlines) as [p ->].
  rewrite (extract_log _ o0 env Hu) by lia.
  exists p. f_equal. f_equal; [f_equal|].
  - now rewrite Hd, map_map.
  - rewrite len_cons, len_app, Hlen. change (len [""]) with 1. lia.
Qed.

(** X15: the picture of a log shows what the run reported.  For the log
    of a bounded run of at least one trial, and a limit that covers its
    lines, [generate_visualization] plots: the bit sums, the cumulative
    deviation and the envelope that [get_results] returned for the run,
    against the time stamps of the run counted from the first one, in
    hours. *)
Theorem visualization_shows_the_run :
  forall (a : settings) (md rem : string) (now : Z) (fs : filesystem)
         (env : nat -> draw) (n : nat) (limit : Z),
    decimal_text (float_str (ColorZ a)) = true ->
    decimal_text (float_str (RotZ a)) = true ->
    float (float_str (ColorZ a)) = Some (ColorZ a) ->
    float (float_str (RotZ a)) = Some (RotZ a) ->
    0 <= NEDspeed a ->
    (forall k, (k < S n)%nat -> unsigned_draw (env k)) ->
    exists fs' o r,
      run_with QBYTE_DIR float_str a md rem (Z.of_nat (S n)) now env fs
      = (fs', Ok (o, r))
      /\ (Z.of_nat (S n) + color_events (events o)
          + rotation_events (events o) <= limit ->
          exists fig,
            QbyteDataProcessor.generate_visualization float
              (outfile_path o) limit fs' = Ok (Some fig)
            /\ QbyteDataProcessor.plot_bit_sums fig
               = bit_sums (data_summary r)
            /\ QbyteDataProcessor.plot_deviation fig
               = cumulative_deviation (data_summary r)
            /\ QbyteDataProcessor.plot_std_dev fig
               = std_dev (data_summary r)
            /\ QbyteDataProcessor.rel_times fig
               = map (fun t => (IZR (t - clock (env 0%nat)) / 3600000)%R)
                     (timestamps o)).
Proof.
  intros a md rem now fs env n limit Hc Hr Fc Fr Hw Hu.
  destruct (run_with_data a md rem now fs env (S n) Hc Hr Hw)
    as (fs' & o & o0 & text & Hrun & Hp & Hfs & Hlines & Hlen & Hd & Ht).
  exists fs', o, (get_results o). split; [exact Hrun|].
  intros Hl. unfold QbyteDataProcessor.generate_visualization.
  destruct (parse_run_log _ _ Hc Hr Fc Fr Hfs Hlines) as [p ->].
  cbn [bind snd].
  rewrite (extract_log _ o0 env Hu) by lia.
  cbn [seq map]. eexists. split; [reflexivity|].
  unfold QbyteDataProcessor.plot_series, get_results.
  cbn [QbyteDataProcessor.plot_bit_sums QbyteDataProcessor.plot_deviation
       QbyteDataProcessor.plot_std_dev QbyteDataProcessor.rel_times
       data_summary bit_sums cumulative_deviation std_dev nth].
  rewrite Hd, Ht. cbn [seq map]. rewrite !map_map.
  repeat split.
Qed.

End RoundTrip.

(* ================================================================== *)
(** * The theorems at concrete inputs *)
(* ================================================================== *)

(** The recount theorem on a run of two trials with the default
    parameters. *)
Lemma recount_matches_live_counters_witness :
  exists fs' o r text,
    run_with "Qbyte" literal_str QByteHeadless.default_settings
      "static" "API" (Z.of_nat 2) 1700000000000 sample_env no_files
    = (fs', Ok (o, r))
    /\ fs' (QByteHeadless.outfile_path o) = Some text
    /\ QByteHeadless.res_events r = QByteHeadless.events o
    /\ QByteHeadless.total_iterations (QByteHeadless.data_summary r)
       = Z.of_nat 2
    /\ QByteHeadless.qbyte_lines (QByteHeadless.events o) = Z.of_nat 2
    /\ QbyteDataProcessor.qbyte_lines
         (QbyteDataProcessor.count_events (split newline text))
       = Z.of_nat 2
    /\ QbyteDataProcessor.color_events
         (QbyteDataProcessor.count_events (split newline text))
       = QByteHeadless.color_events (QByteHeadless.events o)
    /\ QbyteDataProcessor.rotation_events
         (QbyteDataProcessor.count_events (split newline text))
       = QByteHeadless.rotation_events (QByteHeadless.events o).
Proof.
  apply (recount_matches_live_counters "Qbyte" literal_str
           QByteHeadless.default_settings "static" "API" 1700000000000
           no_files sample_env 2);
    [reflexivity | reflexivity | cbn; lia].
Defined.

Lemma sample_env_sampled : QByteHeadless.sampled 250 (sample_env 0).
Proof.
  split; [reflexivity|].
  apply Forall_forall. intros x Hx. apply repeat_spec in Hx. subst x.
  cbn. lia.
Qed.

(** The log that the constructor leaves, with the default parameters, is
    not analysed. *)
Lemma header_only_log_raises_witness :
  is_ok
    (analyze literal_float
       (QByteHeadless.file_stem "Qbyte" 1700000000000 "API" ++ ".txt") 1000
       (fst (QByteHeadless.init_with "Qbyte" literal_str
               QByteHeadless.default_settings "static" "API" 1700000000000
               no_files)))
  = false.
Proof.
  exact (proj1 (proj2 (header_only_log_raises "Qbyte" literal_str
                         literal_float QByteHeadless.default_settings
                         "static" "API" 1700000000000 no_files 1000
                         eq_refl eq_refl))).
Defined.

(** The width inferred from the log of one trial of 250 values is 251. *)
Lemma inferred_width_is_one_more_witness :
  exists fs' o r,
    run_with "Qbyte" literal_str QByteHeadless.default_settings
      "static" "API" (Z.of_nat 1) 1700000000000 sample_env no_files
    = (fs', Ok (o, r))
    /\ len (split ","
              (QByteHeadless.qbyte_line
                 (QByteHeadless.randint (sample_env 0))
                 (QByteHeadless.clock (sample_env 0))
                 (QByteHeadless.TurboUse QByteHeadless.default_settings)))
       = QByteHeadless.NEDspeed QByteHeadless.default_settings + 3
    /\ forall p lines,
        QbyteDataProcessor.parse_file_header literal_float
          (QByteHeadless.outfile_path o) fs' = Ok (p, lines) ->
        QbyteDataProcessor.NEDspeed p
        = Some (QByteHeadless.NEDspeed QByteHeadless.default_settings + 1).
Proof.
  apply (inferred_width_is_one_more "Qbyte" literal_str literal_float
           QByteHeadless.default_settings "static" "API" 1700000000000
           no_files sample_env 0);
    [reflexivity | reflexivity | cbn; lia | exact sample_env_sampled].
Defined.

(** The z values of the default header come back, and so does the turbo
    flag after two trials. *)
Lemma header_z_round_trip_and_fallbacks_witness :
  exists fs' o r p lines,
    run_with "Qbyte" literal_str QByteHeadless.default_settings
      "static" "API" (Z.of_nat 2) 1700000000000 sample_env no_files
    = (fs', Ok (o, r))
    /\ QbyteDataProcessor.parse_file_header literal_float
         (QByteHeadless.outfile_path o) fs' = Ok (p, lines)
    /\ QbyteDataProcessor.ColorZ p = Some 1.65%Q
    /\ QbyteDataProcessor.RotZ p = Some 1.85%Q
    /\ ((1 <= 2)%nat -> QbyteDataProcessor.TurboUse p = Some false).
Proof.
  exact (proj1 (header_z_round_trip_and_fallbacks "Qbyte" literal_str
                  literal_float QByteHeadless.default_settings
                  "static" "API" 1700000000000 no_files sample_env 2
                  eq_refl eq_refl eq_refl eq_refl ltac:(cbn; lia))).
Defined.

(* ================================================================== *)
(** * Where the code departs from the specification *)
(* ================================================================== *)

(** C4 fails on the code.  The header written with the default parameters
    (HALO true) is decoded with HALO false: the writer puts the flags in
    the tokens 6, 7 and 8 and the decoder reads the tokens 5, 6 and 7.
    And a header that stops after the z values is decoded without any
    flag, not with the documented defaults. *)
Lemma header_flags_are_not_recovered :
  exists p lines q lines',
    QbyteDataProcessor.parse_file_header literal_float
      "Qbyte/QB_1700000000_API.txt"
      (fst (QByteHeadless.__init__ "Qbyte" literal_str "static" "API"
              1700000000000 no_files))
    = Ok (p, lines)
    /\ QByteHeadless.HALO QByteHeadless.default_settings = true
    /\ QbyteDataProcessor.HALO p = Some false
    /\ QbyteDataProcessor.parse_file_header literal_float "short.txt"
         (write "short.txt" "ColorZ: 1.65 RotZ: 1.85" no_files)
       = Ok (q, lines')
    /\ QbyteDataProcessor.UseTrueRNG q = None
    /\ QbyteDataProcessor.HALO q = None
    /\ QbyteDataProcessor.TurboUse q = None.
Proof.
  do 4 eexists.
  split; [lazy; reflexivity|]. split; [reflexivity|].
  split; [reflexivity|].
  split; [lazy; reflexivity|]. repeat split.
Qed.






(* ================================================================== *)
(** * The further properties at concrete inputs *)
(* ================================================================== *)

Lemma sample_env_unsigned (k : nat) : unsigned_draw (sample_env k).
Proof.
  unfold unsigned_draw, sample_env.
  cbn [QByteHeadless.clock QByteHeadless.randint].
  split; [lia|].
  apply Forall_forall. intros x Hx.
  apply repeat_spec in Hx. subst x. destruct (Nat.even k); lia.
Qed.

(** The bit sum of the first sample trial lies within 0 and 2000. *)
Lemma bit_sum_within_bits_witness :
  0 <= QByteHeadless.count_bits (QByteHeadless.randint (sample_env 0))
  <= 8 * 250.
Proof.
  exact (@bit_sum_within_bits 250 (sample_env 0) sample_env_sampled).
Defined.

(** The counters of a run of two trials with the default parameters. *)
Lemma event_counters_bounded_witness :
  exists fs' o r,
    run_with "Qbyte" literal_str QByteHeadless.default_settings
      "static" "API" (Z.of_nat 2) 1700000000000 sample_env no_files
    = (fs', Ok (o, r))
    /\ QByteHeadless.qbyte_lines (QByteHeadless.events o) = Z.of_nat 2
    /\ 0 <= QByteHeadless.color_events (QByteHeadless.events o)
       <= Z.of_nat 2
    /\ 0 <= QByteHeadless.rotation_events (QByteHeadless.events o)
       <= Z.of_nat 2
    /\ ((QByteHeadless.ColorZ QByteHeadless.default_settings
         <= QByteHeadless.RotZ QByteHeadless.default_settings)%Q ->
        QByteHeadless.rotation_events (QByteHeadless.events o)
        <= QByteHeadless.color_events (QByteHeadless.events o)).
Proof.
  apply (@event_counters_bounded "Qbyte" literal_str
           QByteHeadless.default_settings "static" "API" 1700000000000
           no_files sample_env 2).
  cbn. lia.
Defined.

(** A header line and one trial line, as lines and as a file. *)
Lemma extracted_series_aligned_witness :
  let r := QbyteDataProcessor.extract_qbyte_data
             ["ColorZ: 1.65 RotZ: 1.85"; "QBYTE,15,1700000000000,F"] 1000 in
  snd r = map QbyteDataProcessor.timestamp (fst r)
  /\ Forall (fun t => 0 <= QbyteDataProcessor.timestamp t
                      /\ 0 <= QbyteDataProcessor.bit_sum t
                      /\ Forall (fun v => 0 <= v)
                                (QbyteDataProcessor.values t)) (fst r)
  /\ (0 <= 1000 -> len (fst r) <= 1000).
Proof.
  apply (@extracted_series_aligned
           ["ColorZ: 1.65 RotZ: 1.85"; "QBYTE,15,1700000000000,F"] 1000).
  repeat (constructor;
          [split; [reflexivity | apply Nat.leb_le; reflexivity]|]).
  constructor.
Defined.


(** The file route on a file of a header line and one trial line. *)
Lemma file_data_answers_witness :
  let path := App.path_of "Qbyte" "x.txt" in
  match App.get_file_data "Qbyte" literal_float "x.txt"
          (write "Qbyte/x.txt" sample_log no_files) with
  | App.Failed status =>
      (status = 404 /\ write "Qbyte/x.txt" sample_log no_files path = None)
      \/ (status = 500
          /\ exists text,
              write "Qbyte/x.txt" sample_log no_files path = Some text
              /\ let header := split " " (nth 0 (split newline text) "") in
                 (1 < len header
                  /\ literal_float (nth 1 header "") = None)
                 \/ (3 < len header
                     /\ literal_float (nth 3 header "") = None))
  | App.Json (p, sample, total) =>
      exists text,
        write "Qbyte/x.txt" sample_log no_files path = Some text
        /\ total = len (split newline text)
        /\ 1 <= total
        /\ len sample <= 100
        /\ QbyteDataProcessor.ColorZ p <> None
        /\ QbyteDataProcessor.RotZ p <> None
  end.
Proof.
  apply (@file_data_answers "Qbyte" literal_float "x.txt"
           (write "Qbyte/x.txt" sample_log no_files)).
  intros text Ht. vm_compute in Ht. injection Ht as <-.
  match goal with
  | |- Forall _ ?l => let l' := eval vm_compute in l in change l with l'
  end.
  repeat (constructor;
          [split; [reflexivity | apply Nat.leb_le; reflexivity]|]).
  constructor.
Defined.

(** The log that the constructor leaves has an empty second line: the
    width inferred is -1, and its statistics are not computed. *)
Lemma statistics_fail_on_commaless_second_line_witness :
  exists p lines,
    QbyteDataProcessor.parse_file_header literal_float
      "Qbyte/QB_1700000000_API.txt"
      (fst (QByteHeadless.__init__ "Qbyte" literal_str "static" "API"
              1700000000000 no_files))
    = Ok (p, lines)
    /\ ((exists h l1 rest,
            lines = h :: l1 :: rest /\ occurs "," l1 = false)
        <-> QbyteDataProcessor.NEDspeed p = Some (-1))
    /\ (forall w, QbyteDataProcessor.NEDspeed p = Some w -> -1 <= w)
    /\ (QbyteDataProcessor.NEDspeed p = Some (-1) ->
        forall libm_pow zc zr,
          Binary64.calculate_statistics libm_pow
            {| Binary64.ColorZ := zc; Binary64.RotZ := zr;
               Binary64.NEDspeed := QbyteDataProcessor.NEDspeed p |}
          = Raise TypeError).
Proof.
  do 2 eexists. split.
  - lazy; reflexivity.
  - apply (@statistics_fail_on_commaless_second_line literal_float
             "Qbyte/QB_1700000000_API.txt"
             (fst (QByteHeadless.__init__ "Qbyte" literal_str "static" "API"
                     1700000000000 no_files))).
    lazy; reflexivity.
Defined.

(** The two sample trials come back from their log. *)
Lemma extraction_recovers_the_run_witness :
  exists fs' o r text,
    run_with "Qbyte" literal_str QByteHeadless.default_settings
      "static" "API" (Z.of_nat 2) 1700000000000 sample_env no_files
    = (fs', Ok (o, r))
    /\ fs' (QByteHeadless.outfile_path o) = Some text
    /\ (Z.of_nat 2 + QByteHeadless.color_events (QByteHeadless.events o)
        + QByteHeadless.rotation_events (QByteHeadless.events o) <= 1000 ->
        QbyteDataProcessor.extract_qbyte_data (split newline text) 1000
        = (map as_decoded (QByteHeadless.qbyte_data o),
           QByteHeadless.timestamps o)).
Proof.
  apply (@extraction_recovers_the_run "Qbyte" literal_str
           QByteHeadless.default_settings "static" "API" 1700000000000
           no_files sample_env 2 1000);
    [reflexivity | reflexivity | cbn; lia
    | intros k _; apply sample_env_unsigned].
Defined.

(** The line count of the log of the two sample trials. *)
Lemma total_lines_counts_header_and_end_witness :
  exists fs' o r text,
    run_with "Qbyte" literal_str QByteHeadless.default_settings
      "static" "API" (Z.of_nat 2) 1700000000000 sample_env no_files
    = (fs', Ok (o, r))
    /\ fs' (QByteHeadless.outfile_path o) = Some text
    /\ QbyteDataProcessor.total_lines
         (QbyteDataProcessor.count_events (split newline text))
       = QByteHeadless.qbyte_lines (QByteHeadless.events o)
         + QByteHeadless.color_events (QByteHeadless.events o)
         + QByteHeadless.rotation_events (QByteHeadless.events o) + 2.
Proof.
  apply (@total_lines_counts_header_and_end "Qbyte" literal_str
           QByteHeadless.default_settings "static" "API" 1700000000000
           no_files sample_env 2);
    [reflexivity | reflexivity | cbn; lia].
Defined.

(** The file route on the log of the two sample trials. *)
Lemma file_route_serves_the_run_witness :
  exists fs' o r,
    run_with "Qbyte" literal_str QByteHeadless.default_settings
      "static" "API" (Z.of_nat 2) 1700000000000 sample_env no_files
    = (fs', Ok (o, r))
    /\ (Z.of_nat 2 + QByteHeadless.color_events (QByteHeadless.events o)
        + QByteHeadless.rotation_events (QByteHeadless.events o) <= 1000 ->
        exists p,
          App.get_file_data "Qbyte" literal_float
            ("QB_" ++ str (Z.quot 1700000000000 1000) ++ "_" ++ "API"
             ++ ".txt") fs'
          = App.Json
              (p, slice_to (map as_decoded (QByteHeadless.qbyte_data o)) 100,
               Z.of_nat 2
               + QByteHeadless.color_events (QByteHeadless.events o)
               + QByteHeadless.rotation_events (QByteHeadless.events o)
               + 2)).
Proof.
  apply (@file_route_serves_the_run "Qbyte" literal_str literal_float
           QByteHeadless.default_settings "static" "API" 1700000000000
           no_files sample_env 2);
    [reflexivity | reflexivity | reflexivity | reflexivity | cbn; lia
    | intros k _; apply sample_env_unsigned].
Defined.

(** The picture of the log of the two sample trials. *)
Lemma visualization_shows_the_run_witness :
  exists fs' o r,
    run_with "Qbyte" literal_str QByteHeadless.default_settings
      "static" "API" (Z.of_nat 2) 1700000000000 sample_env no_files
    = (fs', Ok (o, r))
    /\ (Z.of_nat 2 + QByteHeadless.color_events (QByteHeadless.events o)
        + QByteHeadless.rotation_events (QByteHeadless.events o) <= 1000 ->
        exists fig,
          QbyteDataProcessor.generate_visualization literal_float
            (QByteHeadless.outfile_path o) 1000 fs' = Ok (Some fig)
          /\ QbyteDataProcessor.plot_bit_sums fig
             = QByteHeadless.bit_sums (QByteHeadless.data_summary r)
          /\ QbyteDataProcessor.plot_deviation fig
             = QByteHeadless.cumulative_deviation
                 (QByteHeadless.data_summary r)
          /\ QbyteDataProcessor.plot_std_dev fig
             = QByteHeadless.std_dev (QByteHeadless.data_summary r)
          /\ QbyteDataProcessor.rel_times fig
             = map (fun t =>
                      (IZR (t - QByteHeadless.clock (sample_env 0))
                       / 3600000)%R)
                   (QByteHeadless.timestamps o)).
Proof.
  apply (@visualization_shows_the_run "Qbyte" literal_str literal_float
           QByteHeadless.default_settings "static" "API" 1700000000000
           no_files sample_env 1 1000);
    [reflexivity | reflexivity | reflexivity | reflexivity | cbn; lia
    | intros k _; apply sample_env_unsigned].
Defined.
